(** * ETDump serialization (sdk/etdump/serialize.py)

    A shallow embedding of the ETDump (de)serializer: the typed record
    tree is turned into JSON text by [json.dumps], staged in a temporary
    directory next to the flatbuffer schemas, handed to the flatc
    bindings, and the produced file is read back; deserialization is the
    mirror image.

    Python values are modelled as follows.
    - [str] is a list of Unicode code points ([N]); [bytes] is a list of
      [Byte.byte].
    - file paths and resource names are Rocq strings.
    - the file system is a finite map from paths to bytes, a set of
      directories and a log of the files opened by the module.
    - an exception is a value of [error], threaded through an
      error-and-state monad. *)

From Stdlib Require Import ZArith NArith Lia Bool Ascii.
From stdpp Require Import gmap strings list.

Local Open Scope N_scope.

(** ** Python [str], [bytes] and text helpers *)

Module Py.

Abbreviation pystr := (list N).
Abbreviation bytes := (list Byte.byte).

(** A Rocq string literal read as a Python [str] (one code point per
    character). *)
Definition u (s : string) : pystr :=
  map Ascii.N_of_ascii (String.list_ascii_of_string s).

(** A literal in which an apostrophe stands for a double quote, for
    writing JSON text. *)
Definition uq (s : string) : pystr :=
  map (fun c => if c =? 39 then 34 else c) (u s).

(** A non-NUL ASCII character. *)
Definition ascii_char (c : N) : Prop := 0 < c < 128.

(** A Unicode scalar value: a code point that is not a surrogate. *)
Definition valid_char (c : N) : bool :=
  (c <? 0xd800) || ((0xdfff <? c) && (c <? 0x110000)).

(** A [str] that is Unicode text: no surrogate code points. *)
Definition valid_str (s : pystr) : bool := forallb valid_char s.

(** [str.encode("ascii")]: raises [UnicodeEncodeError] on the first code
    point above 127. *)
Fixpoint encode_ascii (s : pystr) : option bytes :=
  match s with
  | [] => Some []
  | c :: r =>
      if c <? 128 then
        match Byte.of_N c, encode_ascii r with
        | Some b, Some bs => Some (b :: bs)
        | _, _ => None
        end
      else None
  end.

(** The code points of an ASCII byte string. *)
Definition ascii_text (b : bytes) : pystr := map Byte.to_N b.

(** Bytes that are plain ASCII text without NUL: the payloads on which
    every text decoding Python may pick (UTF-8, or UTF-16/32 when NUL
    bytes are seen) is settled and is the identity. *)
Definition is_plain_ascii (b : bytes) : bool :=
  forallb (fun x => (0 <? Byte.to_N x) && (Byte.to_N x <? 128)) b.

(** [a.endswith("/")] *)
Fixpoint ends_with_slash (a : string) : bool :=
  match a with
  | EmptyString => false
  | String c EmptyString => Ascii.eqb c "/"%char
  | String _ r => ends_with_slash r
  end.

(** [os.path.join(a, b)] for two components (posixpath). *)
Definition path_join (a b : string) : string :=
  match b with
  | String c _ =>
      if Ascii.eqb c "/"%char then b
      else if String.eqb a EmptyString || ends_with_slash a then (a ++ b)%string
      else (a ++ "/" ++ b)%string
  | EmptyString =>
      if String.eqb a EmptyString || ends_with_slash a then a
      else (a ++ "/")%string
  end.

(** [s.startswith(p)] *)
Fixpoint starts_with (p s : string) : bool :=
  match p, s with
  | EmptyString, _ => true
  | String a p', String b s' => Ascii.eqb a b && starts_with p' s'
  | String _ _, EmptyString => false
  end.

End Py.

Import Py.

(** ** The [json] module of the Python standard library

    Only the part of JSON that the model of the records produces is
    covered: [None], [bool], [int], [str], [list] and [dict] with [str]
    keys. Floats are left out; a text with a float literal is outside
    the modelled fragment and the parser answers [None] for it, as it
    does for malformed text. *)

Module Json.

Unset Elimination Schemes.
Inductive json : Type :=
| JNull
| JBool (b : bool)
| JInt (z : Z)
| JStr (s : pystr)
| JArr (items : list json)
| JObj (members : list (pystr * json)).
Set Elimination Schemes.

(** Induction over a JSON value, with the hypothesis for every element
    of an array and every member of an object. *)
Definition json_ind (P : json -> Prop)
  (Hnull : P JNull) (Hbool : forall b, P (JBool b))
  (Hint : forall z, P (JInt z)) (Hstr : forall s, P (JStr s))
  (Harr : forall l, Forall P l -> P (JArr l))
  (Hobj : forall m, Forall (fun kv => P (snd kv)) m -> P (JObj m))
  : forall j, P j :=
  fix F (j : json) : P j :=
    match j with
    | JNull => Hnull
    | JBool b => Hbool b
    | JInt z => Hint z
    | JStr s => Hstr s
    | JArr l =>
        Harr l ((fix G (l : list json) : Forall P l :=
                   match l with
                   | [] => @List.Forall_nil json P
                   | x :: l' => @List.Forall_cons json P x l' (F x) (G l')
                   end) l)
    | JObj m =>
        Hobj m ((fix G (m : list (pystr * json))
                   : Forall (fun kv => P (snd kv)) m :=
                   match m with
                   | [] => @List.Forall_nil _ (fun kv => P (snd kv))
                   | kv :: m' => @List.Forall_cons _ (fun kv => P (snd kv)) kv m'
                         (F (snd kv)) (G m')
                   end) m)
    end.

(** *** Encoder (json/encoder.py) *)

Definition hex_digit (n : N) : N :=
  if n <? 10 then 48 + n else 87 + n.

(** ['{0:04x}'.format(n)] for [n < 0x10000]. *)
Definition hex4 (n : N) : pystr :=
  [ hex_digit ((n / 4096) mod 16); hex_digit ((n / 256) mod 16);
    hex_digit ((n / 16) mod 16); hex_digit (n mod 16) ].

(** The [replace] callback of [py_encode_basestring_ascii], applied to
    every character: [ESCAPE_ASCII] matches a backslash, a double quote
    and everything outside [' '..'~']. *)
Definition escape_char (c : N) : pystr :=
  if c =? 34 then [92; 34]
  else if c =? 92 then [92; 92]
  else if c =? 8 then [92; 98]
  else if c =? 12 then [92; 102]
  else if c =? 10 then [92; 110]
  else if c =? 13 then [92; 114]
  else if c =? 9 then [92; 116]
  else if (32 <=? c) && (c <=? 126) then [c]
  else if c <? 0x10000 then 92 :: 117 :: hex4 c
  else
    let n := c - 0x10000 in
    let s1 := N.lor 0xd800 (N.land (N.shiftr n 10) 0x3ff) in
    let s2 := N.lor 0xdc00 (N.land n 0x3ff) in
    (92 :: 117 :: hex4 s1) ++ (92 :: 117 :: hex4 s2).

Definition encode_basestring_ascii (s : pystr) : pystr :=
  34 :: flat_map escape_char s ++ [34].

(** [int.__repr__]: decimal digits, most significant first. *)
Fixpoint N_digits (fuel : nat) (n : N) (acc : pystr) : pystr :=
  match fuel with
  | O => acc
  | S f =>
      let acc' := (48 + n mod 10) :: acc in
      if n <? 10 then acc' else N_digits f (n / 10) acc'
  end.

Definition N_repr (n : N) : pystr :=
  N_digits (S (N.to_nat (N.size n))) n [].

Definition int_repr (z : Z) : pystr :=
  match z with
  | Z0 => [48]
  | Zpos p => N_repr (Npos p)
  | Zneg p => 45 :: N_repr (Npos p)
  end.

(** The formatting parameters of [JSONEncoder]. *)
Record fmt : Type := Fmt {
  indent : option nat;
  item_separator : pystr;
  key_separator : pystr
}.

(** ['\n' + _indent * _current_indent_level], or nothing without
    indentation. *)
Definition newline_indent (f : fmt) (level : nat) : pystr :=
  match indent f with
  | Some n => 10 :: repeat 32 (n * level)%nat
  | None => []
  end.

(** [_iterencode], [_iterencode_list] and [_iterencode_dict] of
    [_make_iterencode], with the chunks concatenated. *)
Fixpoint iterencode (f : fmt) (level : nat) (j : json) : pystr :=
  match j with
  | JNull => u "null"
  | JBool true => u "true"
  | JBool false => u "false"
  | JInt z => int_repr z
  | JStr s => encode_basestring_ascii s
  | JArr [] => u "[]"
  | JArr (x :: xs) =>
      91 :: newline_indent f (S level) ++ iterencode f (S level) x
        ++ (fix rest (l : list json) : pystr :=
              match l with
              | [] => []
              | y :: ys =>
                  item_separator f ++ newline_indent f (S level)
                    ++ iterencode f (S level) y ++ rest ys
              end) xs
        ++ newline_indent f level ++ [93]
  | JObj [] => u "{}"
  | JObj ((k, v) :: kvs) =>
      123 :: newline_indent f (S level)
        ++ encode_basestring_ascii k ++ key_separator f
        ++ iterencode f (S level) v
        ++ (fix rest (l : list (pystr * json)) : pystr :=
              match l with
              | [] => []
              | (k', v') :: l' =>
                  item_separator f ++ newline_indent f (S level)
                    ++ encode_basestring_ascii k' ++ key_separator f
                    ++ iterencode f (S level) v' ++ rest l'
              end) kvs
        ++ newline_indent f level ++ [125]
  end.

(** The text after the first element of a non-empty array, up to the
    closing bracket, and the same for the members of an object. *)
Fixpoint items_tail (f : fmt) (level : nat) (l : list json) : pystr :=
  match l with
  | [] => []
  | y :: ys =>
      item_separator f ++ newline_indent f (S level)
        ++ iterencode f (S level) y ++ items_tail f level ys
  end.

Fixpoint members_tail (f : fmt) (level : nat) (l : list (pystr * json))
  : pystr :=
  match l with
  | [] => []
  | (k, v) :: l' =>
      item_separator f ++ newline_indent f (S level)
        ++ encode_basestring_ascii k ++ key_separator f
        ++ iterencode f (S level) v ++ members_tail f level l'
  end.

(** [JSONEncoder.__init__]: with an indent the item separator defaults to
    [","], without to [", "]; the key separator is [": "]. *)
Definition default_fmt (ind : option nat) : fmt :=
  match ind with
  | Some n => Fmt (Some n) [44] [58; 32]
  | None => Fmt None [44; 32] [58; 32]
  end.

(** [separators=(",", ":")] without indent: the most compact form. *)
Definition compact_fmt : fmt := Fmt None [44] [58].

Definition dumps (f : fmt) (j : json) : pystr := iterencode f 0 j.

(** *** Decoder (json/decoder.py, json/scanner.py) *)

Definition is_ws (c : N) : bool :=
  (c =? 32) || (c =? 9) || (c =? 10) || (c =? 13).

(** [WHITESPACE.match(s, end).end()] *)
Fixpoint skip_ws (t : pystr) : pystr :=
  match t with
  | c :: r => if is_ws c then skip_ws r else t
  | [] => []
  end.

Definition hex_val (c : N) : option N :=
  if (48 <=? c) && (c <=? 57) then Some (c - 48)
  else if (97 <=? c) && (c <=? 102) then Some (c - 87)
  else if (65 <=? c) && (c <=? 70) then Some (c - 55)
  else None.

(** Separators that differ from [","] and [":"] by whitespace only. *)
Definition fmt_ok (f : fmt) : bool :=
  match item_separator f with
  | c :: w => (c =? 44) && forallb is_ws w
  | [] => false
  end
  && match skip_ws (key_separator f) with
     | c :: w => (c =? 58) && forallb is_ws w
     | [] => false
     end.

(** [_decode_uXXXX]: the four hexadecimal digits after [\u], as the C
    scanner reads them. *)
Definition decode_uXXXX (t : pystr) : option (N * pystr) :=
  match t with
  | a :: b :: c :: d :: r =>
      match hex_val a, hex_val b, hex_val c, hex_val d with
      | Some x3, Some x2, Some x1, Some x0 =>
          Some (x3 * 4096 + x2 * 256 + x1 * 16 + x0, r)
      | _, _, _, _ => None
      end
  | _ => None
  end.

(** The [BACKSLASH] table. *)
Definition backslash (e : N) : option N :=
  if e =? 34 then Some 34
  else if e =? 92 then Some 92
  else if e =? 47 then Some 47
  else if e =? 98 then Some 8
  else if e =? 102 then Some 12
  else if e =? 110 then Some 10
  else if e =? 114 then Some 13
  else if e =? 116 then Some 9
  else None.

(** One turn of the loop of [scanstring] (strict mode) on a text that
    does not start with the closing quote: the next character of the
    string and the rest of the text. *)
Definition scan_char (t : pystr) : option (N * pystr) :=
  match t with
  | [] => None
  | c :: r =>
      if c =? 92 then
        match r with
        | [] => None
        | e :: r1 =>
            if e =? 117 then
              match decode_uXXXX r1 with
              | None => None
              | Some (uni, r2) =>
                  if (0xd800 <=? uni) && (uni <=? 0xdbff) then
                    match r2 with
                    | b :: v :: r3 =>
                        if (b =? 92) && (v =? 117) then
                          match decode_uXXXX r3 with
                          | None => None
                          | Some (uni2, r4) =>
                              if (0xdc00 <=? uni2) && (uni2 <=? 0xdfff) then
                                Some (0x10000 +
                                        N.lor (N.shiftl (uni - 0xd800) 10)
                                              (uni2 - 0xdc00), r4)
                              else Some (uni, r2)
                          end
                        else Some (uni, r2)
                    | _ => Some (uni, r2)
                    end
                  else Some (uni, r2)
              end
            else
              match backslash e with
              | Some ch => Some (ch, r1)
              | None => None
              end
        end
      else if c <? 32 then None
      else Some (c, r)
  end.

Fixpoint scanstring_loop (fuel : nat) (t : pystr) : option (pystr * pystr) :=
  match fuel with
  | O => None
  | S f =>
      match t with
      | [] => None
      | c :: r =>
          if c =? 34 then Some ([], r)
          else
            match scan_char t with
            | None => None
            | Some (ch, r') =>
                match scanstring_loop f r' with
                | None => None
                | Some (s, r'') => Some (ch :: s, r'')
                end
            end
      end
  end.

(** [scanstring(s, end)] with [end] just after the opening quote. *)
Definition scanstring (t : pystr) : option (pystr * pystr) :=
  scanstring_loop (length t) t.

Definition is_digit (c : N) : bool := (48 <=? c) && (c <=? 57).

Fixpoint span_digits (t : pystr) : pystr * pystr :=
  match t with
  | c :: r =>
      if is_digit c then
        let '(ds, r') := span_digits r in (c :: ds, r')
      else ([], t)
  | [] => ([], [])
  end.

(** [int(digits)] *)
Definition digits_value (ds : pystr) : N :=
  fold_left (fun acc d => 10 * acc + (d - 48)) ds 0.

(** Whether a fraction or an exponent follows the integer part, in which
    case [NUMBER_RE] matches a float. *)
Definition float_follows (t : pystr) : bool :=
  match t with
  | c :: d :: r =>
      if c =? 46 then is_digit d
      else if (c =? 101) || (c =? 69) then
        if is_digit d then true
        else if (d =? 43) || (d =? 45) then
          match r with
          | e :: _ => is_digit e
          | [] => false
          end
        else false
      else false
  | _ => false
  end.

(** [NUMBER_RE.match]: an optional minus sign, then either a single
    zero or a non-zero digit followed by digits; answering only for
    integers. *)
Definition match_number (t : pystr) : option (Z * pystr) :=
  let '(neg, t1) :=
    match t with
    | c :: r => if c =? 45 then (true, r) else (false, t)
    | [] => (false, t)
    end in
  match t1 with
  | [] => None
  | d :: r =>
      if negb (is_digit d) then None
      else
        let '(ds, r') := if d =? 48 then ([d], r) else span_digits t1 in
        if float_follows r' then None
        else
          let n := Z.of_N (digits_value ds) in
          Some (if neg then (- n)%Z else n, r')
  end.

Fixpoint strip_prefix (p t : pystr) : option pystr :=
  match p, t with
  | [], _ => Some t
  | a :: p', b :: t' => if a =? b then strip_prefix p' t' else None
  | _ :: _, [] => None
  end.

(** The loop of [JSONArray], entered on the first character of a
    value. *)
Fixpoint JSONArray_loop (scan_once : pystr -> option (json * pystr))
  (fuel : nat) (t : pystr) : option (list json * pystr) :=
  match fuel with
  | O => None
  | S f =>
      match scan_once t with
      | None => None
      | Some (value, r) =>
          match skip_ws r with
          | [] => None
          | c :: r1 =>
              if c =? 93 then Some ([value], r1)
              else if c =? 44 then
                match JSONArray_loop scan_once f (skip_ws r1) with
                | None => None
                | Some (values, r2) => Some (value :: values, r2)
                end
              else None
          end
      end
  end.

(** [JSONArray((s, end), scan_once)] with [end] just after ['[']. *)
Definition JSONArray (scan_once : pystr -> option (json * pystr))
  (t : pystr) : option (list json * pystr) :=
  match skip_ws t with
  | [] => None
  | c :: r =>
      if c =? 93 then Some ([], r)
      else JSONArray_loop scan_once (length t) (skip_ws t)
  end.

(** The loop of [JSONObject], entered just after the opening quote of a
    key. *)
Fixpoint JSONObject_loop (scan_once : pystr -> option (json * pystr))
  (fuel : nat) (t : pystr) : option (list (pystr * json) * pystr) :=
  match fuel with
  | O => None
  | S f =>
      match scanstring t with
      | None => None
      | Some (key, r) =>
          match skip_ws r with
          | [] => None
          | c :: r1 =>
              if negb (c =? 58) then None
              else
                match scan_once (skip_ws r1) with
                | None => None
                | Some (value, r2) =>
                    match skip_ws r2 with
                    | [] => None
                    | c2 :: r3 =>
                        if c2 =? 125 then Some ([(key, value)], r3)
                        else if c2 =? 44 then
                          match skip_ws r3 with
                          | [] => None
                          | c3 :: r4 =>
                              if c3 =? 34 then
                                match JSONObject_loop scan_once f r4 with
                                | None => None
                                | Some (pairs, r5) =>
                                    Some ((key, value) :: pairs, r5)
                                end
                              else None
                          end
                        else None
                    end
                end
          end
      end
  end.

(** [JSONObject((s, end), ...)] with [end] just after ['{']. The pairs
    are kept in the order read; [dict(pairs)] is accounted for by
    [dict_get], which lets the last binding of a key win. *)
Definition JSONObject (scan_once : pystr -> option (json * pystr))
  (t : pystr) : option (list (pystr * json) * pystr) :=
  match skip_ws t with
  | [] => None
  | c :: r =>
      if c =? 125 then Some ([], r)
      else if c =? 34 then JSONObject_loop scan_once (length t) r
      else None
  end.

(** [_scan_once] of [py_make_scanner]. *)
Fixpoint scan_once (fuel : nat) (t : pystr) : option (json * pystr) :=
  match fuel with
  | O => None
  | S f =>
      match t with
      | [] => None
      | c :: r =>
          if c =? 34 then
            match scanstring r with
            | Some (s, r') => Some (JStr s, r')
            | None => None
            end
          else if c =? 123 then
            match JSONObject (scan_once f) r with
            | Some (pairs, r') => Some (JObj pairs, r')
            | None => None
            end
          else if c =? 91 then
            match JSONArray (scan_once f) r with
            | Some (values, r') => Some (JArr values, r')
            | None => None
            end
          else
            match strip_prefix (u "null") t with
            | Some r' => Some (JNull, r')
            | None =>
                match strip_prefix (u "true") t with
                | Some r' => Some (JBool true, r')
                | None =>
                    match strip_prefix (u "false") t with
                    | Some r' => Some (JBool false, r')
                    | None =>
                        match match_number t with
                        | Some (z, r') => Some (JInt z, r')
                        | None => None
                        end
                    end
                end
            end
      end
  end.

(** [JSONDecoder.decode]: leading whitespace, one value, trailing
    whitespace, end of text. *)
Definition loads_str (t : pystr) : option json :=
  match scan_once (S (length t)) (skip_ws t) with
  | Some (j, r) =>
      match skip_ws r with
      | [] => Some j
      | _ :: _ => None
      end
  | None => None
  end.

(** A JSON value all of whose strings and member names are Unicode
    text. *)
Fixpoint json_ok (j : json) : bool :=
  match j with
  | JStr s => valid_str s
  | JArr l => forallb json_ok l
  | JObj m => forallb (fun kv => valid_str (fst kv) && json_ok (snd kv)) m
  | _ => true
  end.

(** The nesting depth of a JSON value. *)
Fixpoint depth (j : json) : nat :=
  match j with
  | JArr l => S (foldr (fun x d => Nat.max (depth x) d) 0%nat l)
  | JObj m => S (foldr (fun kv d => Nat.max (depth (snd kv)) d) 0%nat m)
  | _ => 0%nat
  end.

(** Where a number may end: not before a digit, a dot or an exponent
    mark. *)
Definition stops (r : pystr) : bool :=
  match r with
  | [] => true
  | c :: _ =>
      negb (is_digit c) && negb (c =? 46) && negb (c =? 101)
      && negb (c =? 69)
  end.

(** The first character of an encoded value. *)
Definition value_start (c : N) : bool :=
  (c =? 34) || (c =? 123) || (c =? 91) || (c =? 110) || (c =? 116)
  || (c =? 102) || (c =? 45) || is_digit c.

(** [scan] reads back the encoding of [y] one level below [level]. *)
Definition scans (scan : pystr -> option (json * pystr)) (f : fmt)
  (level : nat) (y : json) : Prop :=
  forall r, stops r = true ->
    scan (iterencode f (S level) y ++ r) = Some (y, r).

(** [d.get(key)] on the dictionary built from the pairs: the last
    binding of a key wins. *)
Fixpoint dict_get (key : pystr) (d : list (pystr * json)) : option json :=
  match d with
  | [] => None
  | (k, v) :: d' =>
      match dict_get key d' with
      | Some v' => Some v'
      | None => if decide (k = key) then Some v else None
      end
  end.

End Json.

Import Json.

(** ** Exceptions *)

Module Errors.

(** A step of a path into a JSON document: a member name or a position
    in an array. *)
Inductive step : Type :=
| Key (name : pystr)
| Index (i : nat).

Abbreviation path := (list step).

(** The names follow the error taxonomy of the specification;
    [DecodeTypeError] stands for the exception raised when a JSON value
    is of the wrong kind for the declared type, [JSONDecodeError],
    [UnicodeEncodeError] and [UnicodeDecodeError] are those of the
    Python standard library. *)
Inductive error : Type :=
| MissingFieldError (p : path)
| UnknownVariantError (p : path)
| DecodeTypeError (p : path)
| JSONDecodeError
| UnicodeEncodeError
| UnicodeDecodeError
| ResourceNotFoundError (name : string)
| WorkspaceIOError (file : string)
| SchemaCompilerError.

Inductive result (A : Type) : Type :=
| Ok (a : A)
| Err (e : error).

Arguments Ok {A} a.
Arguments Err {A} e.

(** The path of a decoding error seen from one level up. *)
Definition under (s : step) (e : error) : error :=
  match e with
  | MissingFieldError p => MissingFieldError (s :: p)
  | UnknownVariantError p => UnknownVariantError (s :: p)
  | DecodeTypeError p => DecodeTypeError (s :: p)
  | _ => e
  end.

End Errors.

Import Errors.

(** ** The typed tree and its JSON codec *)

Module Dataclass.

(** Modelled from the spec: the data model of the dump records (the
    dataclasses of [executorch.sdk.etdump.schema] and [schema_flatcc]
    are not part of the sources). A record is a tree of named fields;
    a field holds a scalar with an explicit subtype, a nested record, an
    ordered sequence, or a tagged union over named variants; an optional
    field may be absent ([VNone]). Floats and byte sequences are left
    out. *)
Inductive scalar_type : Type :=
| TInt (signed : bool) (width : N)
| TBool
| TString.

Inductive scalar : Type :=
| SInt (signed : bool) (width : N) (z : Z)
| SBool (b : bool)
| SString (s : pystr).

Unset Elimination Schemes.
Inductive ty : Type :=
| TScalar (st : scalar_type)
| TRecord (fields : list field)
| TSeq (elem : ty)
| TUnion (variants : list (pystr * ty))
with field : Type :=
| Field (name : pystr) (optional : bool) (ftype : ty).

Inductive value : Type :=
| VScalar (s : scalar)
| VRecord (fields : list (pystr * value))
| VSeq (items : list value)
| VUnion (variant : pystr) (payload : value)
| VNone.
Set Elimination Schemes.

Definition fname (f : field) : pystr :=
  match f with Field n _ _ => n end.

Definition foptional (f : field) : bool :=
  match f with Field _ o _ => o end.

Definition ftype (f : field) : ty :=
  match f with Field _ _ t => t end.

(** Induction over a type descriptor, with the hypothesis for the type
    of every field and of every variant. *)
Definition ty_ind (P : ty -> Prop)
  (Hscalar : forall st, P (TScalar st))
  (Hrecord : forall fields,
      Forall (fun f => P (ftype f)) fields -> P (TRecord fields))
  (Hseq : forall elem, P elem -> P (TSeq elem))
  (Hunion : forall variants,
      Forall (fun nv => P (snd nv)) variants -> P (TUnion variants))
  : forall t, P t :=
  fix F (t : ty) : P t :=
    match t with
    | TScalar st => Hscalar st
    | TRecord fields =>
        Hrecord fields
          ((fix G (l : list field) : Forall (fun f => P (ftype f)) l :=
              match l with
              | [] => @List.Forall_nil _ (fun f => P (ftype f))
              | fld :: l' =>
                  @List.Forall_cons _ (fun f => P (ftype f)) fld l'
                    (match fld return P (ftype fld) with
                     | Field _ _ ft => F ft
                     end) (G l')
              end) fields)
    | TSeq elem => Hseq elem (F elem)
    | TUnion variants =>
        Hunion variants
          ((fix G (l : list (pystr * ty))
              : Forall (fun nv => P (snd nv)) l :=
              match l with
              | [] => @List.Forall_nil _ (fun nv => P (snd nv))
              | nv :: l' =>
                  @List.Forall_cons _ (fun nv => P (snd nv)) nv l'
                    (F (snd nv)) (G l')
              end) variants)
    end.

(** Modelled from the spec: the members of the JSON object of a tagged
    union, named as in the example of the specification. *)
Definition DISCRIMINATOR : pystr := u "variant".
Definition PAYLOAD : pystr := u "value".

(** Modelled from the spec: the encode direction of the typed-tree/JSON
    codec ([_DataclassEncoder], whose module is not part of the
    sources). Every field gives a member named after it, in the order
    of the record; scalars give native JSON scalars, nested records
    objects, sequences arrays, a tagged union an object with the
    discriminator and the encoded value of the variant. *)
Fixpoint encode_tree (v : value) : json :=
  match v with
  | VScalar (SInt _ _ z) => JInt z
  | VScalar (SBool b) => JBool b
  | VScalar (SString s) => JStr s
  | VRecord fs => JObj (map (fun kv => (fst kv, encode_tree (snd kv))) fs)
  | VSeq xs => JArr (map encode_tree xs)
  | VUnion tag p =>
      JObj [(DISCRIMINATOR, JStr tag); (PAYLOAD, encode_tree p)]
  | VNone => JNull
  end.

Definition is_null (j : json) : bool :=
  match j with JNull => true | _ => false end.

(** Modelled from the spec: a scalar is rebuilt with the subtype the
    schema declares, not one inferred from the JSON value. *)
Definition decode_scalar (st : scalar_type) (j : json) : result value :=
  match st, j with
  | TInt sg w, JInt z => Ok (VScalar (SInt sg w z))
  | TBool, JBool b => Ok (VScalar (SBool b))
  | TString, JStr s => Ok (VScalar (SString s))
  | _, _ => Err (DecodeTypeError [])
  end.

Section Decode.

(** Modelled from the spec: the steps of the decode direction of the
    codec ([_json_to_dataclass], not part of the sources), over [dec],
    the decoder of the values below the current one. *)
Variable dec : json -> ty -> result value.

(** Modelled from the spec: one field of a record, looked up in the
    members of the object; absent and not optional is
    [MissingFieldError]. *)
Definition decode_field (members : list (pystr * json)) (fld : field)
  : result value :=
  match fld with
  | Field name opt ft =>
      match dict_get name members with
      | None =>
          if opt then Ok VNone else Err (MissingFieldError [Key name])
      | Some jv =>
          if opt && is_null jv then Ok VNone
          else
            match dec jv ft with
            | Ok v => Ok v
            | Err e => Err (under (Key name) e)
            end
      end
  end.

(** Modelled from the spec: the fields of a record in the order of the
    schema; the first failure is the failure of the record. *)
Fixpoint decode_fields (members : list (pystr * json)) (fs : list field)
  : result (list (pystr * value)) :=
  match fs with
  | [] => Ok []
  | fld :: fs' =>
      match decode_field members fld with
      | Err e => Err e
      | Ok v =>
          match decode_fields members fs' with
          | Ok r => Ok ((fname fld, v) :: r)
          | Err e => Err e
          end
      end
  end.

(** Modelled from the spec: the elements of a sequence, from position
    [i] on. *)
Fixpoint decode_items (elem : ty) (i : nat) (l : list json)
  : result (list value) :=
  match l with
  | [] => Ok []
  | x :: l' =>
      match dec x elem with
      | Err e => Err (under (Index i) e)
      | Ok v =>
          match decode_items elem (S i) l' with
          | Ok r => Ok (v :: r)
          | Err e => Err e
          end
      end
  end.

(** Modelled from the spec: the variant named by the discriminator,
    searched in the declared variants; not declared is
    [UnknownVariantError]. *)
Fixpoint decode_variant (members : list (pystr * json)) (tag : pystr)
  (vs : list (pystr * ty)) : result value :=
  match vs with
  | [] => Err (UnknownVariantError [])
  | nv :: vs' =>
      if decide (fst nv = tag) then
        match dict_get PAYLOAD members with
        | None => Err (MissingFieldError [Key PAYLOAD])
        | Some jv =>
            match dec jv (snd nv) with
            | Ok p => Ok (VUnion tag p)
            | Err e => Err (under (Key PAYLOAD) e)
            end
        end
      else decode_variant members tag vs'
  end.

End Decode.

(** Modelled from the spec: the decode direction of the codec
    ([_json_to_dataclass], whose module is not part of the sources).
    The reconstruction follows the declared type: every field of the
    schema is looked up in the object, an absent field fails with
    [MissingFieldError] and its path unless it is optional, members the
    schema does not name are ignored, a discriminator outside the
    declared variants fails with [UnknownVariantError]. *)
Fixpoint _json_to_dataclass (j : json) (cls : ty) : result value :=
  match cls with
  | TScalar st => decode_scalar st j
  | TRecord fields =>
      match j with
      | JObj members =>
          match decode_fields _json_to_dataclass members fields with
          | Ok r => Ok (VRecord r)
          | Err e => Err e
          end
      | _ => Err (DecodeTypeError [])
      end
  | TSeq elem =>
      match j with
      | JArr items =>
          match decode_items _json_to_dataclass elem 0 items with
          | Ok r => Ok (VSeq r)
          | Err e => Err e
          end
      | _ => Err (DecodeTypeError [])
      end
  | TUnion variants =>
      match j with
      | JObj members =>
          match dict_get DISCRIMINATOR members with
          | None => Err (MissingFieldError [Key DISCRIMINATOR])
          | Some (JStr tag) =>
              decode_variant _json_to_dataclass members tag variants
          | Some _ => Err (UnknownVariantError [])
          end
      | _ => Err (DecodeTypeError [])
      end
  end.

(** *** Validity of a value under a schema *)

(** Modelled from the spec: the integers of a width and signedness. *)
Definition in_range (signed : bool) (width : N) (z : Z) : bool :=
  if signed then
    ((- 2 ^ (Z.of_N width - 1) <=? z) && (z <? 2 ^ (Z.of_N width - 1)))%Z
  else ((0 <=? z) && (z <? 2 ^ Z.of_N width))%Z.

(** Modelled from the spec: a scalar carries the subtype the schema
    declares, an integer lies in the range of its width, a string is
    Unicode text. *)
Definition valid_scalar (st : scalar_type) (s : scalar) : bool :=
  match st, s with
  | TInt sg w, SInt sg' w' z =>
      Bool.eqb sg sg' && (w =? w') && in_range sg w z
  | TBool, SBool _ => true
  | TString, SString s => valid_str s
  | _, _ => false
  end.

Section Valid.

Variable val : ty -> value -> bool.

(** Modelled from the spec: a field of a record value against the
    field of the schema at the same position. *)
Definition valid_field (fld : field) (kv : pystr * value) : bool :=
  bool_decide (fname fld = fst kv)
  && match snd kv with
     | VNone => foptional fld
     | x => val (ftype fld) x
     end.

Fixpoint valid_fields (fl : list field) (vl : list (pystr * value)) : bool :=
  match fl, vl with
  | [], [] => true
  | fld :: fl', kv :: vl' => valid_field fld kv && valid_fields fl' vl'
  | _, _ => false
  end.

(** Modelled from the spec: the payload of a union against the first
    declared variant of that name. *)
Fixpoint valid_variant (tag : pystr) (p : value) (vs : list (pystr * ty))
  : bool :=
  match vs with
  | [] => false
  | nv :: vs' =>
      if decide (fst nv = tag) then val (snd nv) p
      else valid_variant tag p vs'
  end.

End Valid.

(** Modelled from the spec: [valid t v], the value [v] is a value of
    the declared type [t];
    the fields of a record are those of the schema, in its order, and
    only an optional field may be absent. *)
Fixpoint valid (t : ty) (v : value) : bool :=
  match t, v with
  | TScalar st, VScalar s => valid_scalar st s
  | TRecord fields, VRecord fs => valid_fields valid fields fs
  | TSeq elem, VSeq xs => forallb (valid elem) xs
  | TUnion variants, VUnion tag p => valid_variant valid tag p variants
  | _, _ => false
  end.

(** Modelled from the spec: a well-formed schema, as dataclasses give
    them: the field names of a record are pairwise
    distinct, and all names are Unicode text. *)
Fixpoint wf_ty (t : ty) : bool :=
  match t with
  | TScalar _ => true
  | TRecord fields =>
      bool_decide (NoDup (map fname fields))
      && forallb (fun fld => valid_str (fname fld) && wf_ty (ftype fld))
           fields
  | TSeq elem => wf_ty elem
  | TUnion variants =>
      forallb (fun nv => valid_str (fst nv) && wf_ty (snd nv)) variants
  end.

(** What the round trip asks of the values of a type. *)
Definition round_trips (t : ty) : Prop :=
  wf_ty t = true ->
  forall v, valid t v = true ->
    json_ok (encode_tree v) = true
    /\ _json_to_dataclass (encode_tree v) t = Ok v.

End Dataclass.

Import Dataclass.

(** ** Files, temporary directories and the external collaborators *)

Module OS.

Inductive mode : Type := WB | RB.

(** [open(file, mode)] as called by the module. *)
Inductive event : Type :=
| Opened (file : string) (m : mode).

Record filesystem : Type := FS {
  files : gmap string bytes;
  dirs : gset string;
  opened : list event
}.

(** Computations that read and write the file system and may raise. *)
Definition io (A : Type) : Type := filesystem -> result A * filesystem.

Definition ret {A : Type} (a : A) : io A := fun s => (Ok a, s).

Definition lift {A : Type} (r : result A) : io A := fun s => (r, s).

Definition bind {A B : Type} (m : io A) (k : A -> io B) : io B :=
  fun s =>
    match m s with
    | (Ok a, s') => k a s'
    | (Err e, s') => (Err e, s')
    end.

Declare Scope io_scope.
Delimit Scope io_scope with io.
Notation "x <- m ;; k" := (bind m (fun x => k))
  (at level 100, m at next level, right associativity) : io_scope.
Notation "m ;; k" := (bind m (fun _ => k))
  (at level 100, right associativity) : io_scope.

(** What the module is run against: the schema dataclasses, the package
    data, the operating system and the flatc bindings. *)
Record Env : Type := {
  (** the dataclasses [ETDump] and [ETDumpFlatCC] *)
  ETDump : ty;
  ETDumpFlatCC : ty;
  (** the data files of the package [executorch.sdk.etdump] *)
  resources : gmap string bytes;
  (** the directory name picked by [tempfile.mkdtemp] *)
  tmpname : filesystem -> string;
  (** whether [open(file, "wb")] succeeds *)
  writable : string -> bool;
  (** the transcoding done by flatc for a schema text and a payload *)
  flatc_to_binary : bytes -> bytes -> option bytes;
  flatc_to_json : bytes -> bytes -> option bytes;
  (** [bytes.decode] with the encoding [json.detect_encoding] picks *)
  bytes_decode : bytes -> option pystr
}.

(** Whether [file] lies inside directory [d]. *)
Definition under_dir (d file : string) : bool :=
  starts_with (path_join d EmptyString) file.

Definition log (e : event) (s : filesystem) : filesystem :=
  FS (files s) (dirs s) (opened s ++ [e]).

Definition set_file (file : string) (data : bytes) (s : filesystem)
  : filesystem :=
  FS (<[file := data]> (files s)) (dirs s) (opened s).

(** [open(file, "wb")]: the file is created or truncated. *)
Definition open_wb (env : Env) (file : string) : io unit :=
  fun s =>
    let s1 := log (Opened file WB) s in
    if writable env file then (Ok tt, set_file file [] s1)
    else (Err (WorkspaceIOError file), s1).

(** [f.write(data)] on a file just opened with ["wb"]. *)
Definition file_write (file : string) (data : bytes) : io unit :=
  fun s => (Ok tt, set_file file data s).

(** [open(file, "rb").read()] *)
Definition open_rb_read (file : string) : io bytes :=
  fun s =>
    let s1 := log (Opened file RB) s in
    match files s !! file with
    | Some data => (Ok data, s1)
    | None => (Err (WorkspaceIOError file), s1)
    end.

(** [shutil.rmtree(d)]: the directory and everything inside it. *)
Definition rmtree (d : string) (s : filesystem) : filesystem :=
  FS (filter (fun kv => under_dir d kv.1 = false) (files s))
     (filter (fun p => p <> d /\ under_dir d p = false) (dirs s))
     (opened s).

(** [with tempfile.TemporaryDirectory() as d: body]: the directory is
    created, the body runs, and the directory is removed whether the
    body returns or raises. *)
Definition TemporaryDirectory {A : Type} (env : Env) (body : string -> io A)
  : io A :=
  fun s =>
    let d := tmpname env s in
    let s1 := FS (files s) ({[ d ]} ∪ dirs s) (opened s) in
    let '(r, s2) := body d s1 in
    (r, rmtree d s2).

(** Modelled from the spec: the Schema Resource Provider
    ([pkg_resources.resource_string] over the data files of the package,
    which are not part of the sources): a lookup by name that fails
    with [ResourceNotFoundError] for an unknown name. *)
Definition resource_string (env : Env) (name : string) : io bytes :=
  fun s =>
    match resources env !! name with
    | Some data => (Ok data, s)
    | None => (Err (ResourceNotFoundError name), s)
    end.

(** [os.path.basename] *)
Fixpoint has_slash (p : string) : bool :=
  match p with
  | EmptyString => false
  | String c r => Ascii.eqb c "/"%char || has_slash r
  end.

Fixpoint basename (p : string) : string :=
  match p with
  | EmptyString => EmptyString
  | String c r =>
      if has_slash r then basename r
      else if Ascii.eqb c "/"%char then r
      else p
  end.

(** The name without its last extension: [os.path.splitext(n)[0]] for
    a name that does not start with a dot. *)
Fixpoint has_dot (n : string) : bool :=
  match n with
  | EmptyString => false
  | String c r => Ascii.eqb c "."%char || has_dot r
  end.

Fixpoint strip_ext (n : string) : string :=
  match n with
  | EmptyString => EmptyString
  | String c r =>
      if has_dot r then String c (strip_ext r)
      else if Ascii.eqb c "."%char then EmptyString
      else n
  end.

Definition stem (file : string) : string := strip_ext (basename file).

(** Modelled from the spec: the External Compiler Adapter
    ([bindings.flatc_compile], a native binding that is not part of the
    sources). It reads the schema and the JSON payload, fails with
    [SchemaCompilerError] when the compiler reports a failure, and
    writes the binary into the same directory under the base name of
    the schema with the fixed extension [.etdp]. *)
Definition flatc_compile (env : Env) (d schema_path json_path : string)
  : io unit :=
  fun s =>
    match files s !! schema_path, files s !! json_path with
    | Some schema, Some payload =>
        match flatc_to_binary env schema payload with
        | Some blob =>
            (Ok tt,
             set_file (path_join d (stem schema_path ++ ".etdp")) blob s)
        | None => (Err SchemaCompilerError, s)
        end
    | _, _ => (Err SchemaCompilerError, s)
    end.

(** Modelled from the spec: the inverse direction of the adapter
    ([bindings.flatc_decompile]). The JSON file is written into the same
    directory under the base name of the binary payload with the
    extension [.json]. *)
Definition flatc_decompile (env : Env) (d schema_path bin_path : string)
  : io unit :=
  fun s =>
    match files s !! schema_path, files s !! bin_path with
    | Some schema, Some blob =>
        match flatc_to_json env schema blob with
        | Some text =>
            (Ok tt,
             set_file (path_join d (stem bin_path ++ ".json")) text s)
        | None => (Err SchemaCompilerError, s)
        end
    | _, _ => (Err SchemaCompilerError, s)
    end.

(** [s.encode("ascii")] as a computation. *)
Definition str_encode_ascii (t : pystr) : result bytes :=
  match encode_ascii t with
  | Some b => Ok b
  | None => Err UnicodeEncodeError
  end.

(** The argument of [json.loads]. *)
Inductive str_or_bytes : Type :=
| Str (s : pystr)
| Bytes (b : bytes).

(** [json.loads(s)]: bytes are decoded first; a [str] that starts with
    a byte order mark is refused. *)
Definition json_loads (env : Env) (s : str_or_bytes) : result json :=
  match
    match s with
    | Str t =>
        match t with
        | c :: _ => if c =? 0xfeff then Err JSONDecodeError else Ok t
        | [] => Ok t
        end
    | Bytes b =>
        match bytes_decode env b with
        | Some t => Ok t
        | None => Err UnicodeDecodeError
        end
    end
  with
  | Err e => Err e
  | Ok t =>
      match loads_str t with
      | Some j => Ok j
      | None => Err JSONDecodeError
      end
  end.

End OS.

Import OS.

(** ** sdk/etdump/serialize.py *)

Module Serialize.

Local Open Scope io_scope.
Local Open Scope string_scope.

Definition ETDUMP_SCHEMA_NAME : string := "etdump_schema".
Definition ETDUMP_FLATCC_SCHEMA_NAME : string := "etdump_schema_flatcc".
Definition SCALAR_TYPE_SCHEMA_NAME : string := "scalar_type".

Definition _write_schema (env : Env) (d schema_name : string) : io unit :=
  let schema_path := path_join d (schema_name ++ ".fbs") in
  open_wb env schema_path ;;
  data <- resource_string env (schema_name ++ ".fbs") ;;
  file_write schema_path data.

Definition _serialize_from_etdump_to_json (etdump : value) : pystr :=
  dumps (default_fmt (Some 4%nat)) (encode_tree etdump).

Definition _deserialize_from_json_to_etdump (env : Env)
  (etdump_json : str_or_bytes) : result value :=
  match json_loads env etdump_json with
  | Ok j => _json_to_dataclass j (ETDump env)
  | Err e => Err e
  end.

Definition _convert_to_flatbuffer (env : Env) (etdump_json : pystr)
  : io bytes :=
  TemporaryDirectory env (fun d =>
    _write_schema env d ETDUMP_SCHEMA_NAME ;;
    _write_schema env d SCALAR_TYPE_SCHEMA_NAME ;;
    let schema_path := path_join d (ETDUMP_SCHEMA_NAME ++ ".fbs") in
    let json_path := path_join d (ETDUMP_SCHEMA_NAME ++ ".json") in
    open_wb env json_path ;;
    data <- lift (str_encode_ascii etdump_json) ;;
    file_write json_path data ;;
    flatc_compile env d schema_path json_path ;;
    let output_path := path_join d (ETDUMP_SCHEMA_NAME ++ ".etdp") in
    open_rb_read output_path).

Definition _convert_from_flatbuffer (env : Env) (etdump_flatbuffer : bytes)
  : io bytes :=
  TemporaryDirectory env (fun d =>
    _write_schema env d ETDUMP_SCHEMA_NAME ;;
    _write_schema env d SCALAR_TYPE_SCHEMA_NAME ;;
    let schema_path := path_join d (ETDUMP_SCHEMA_NAME ++ ".fbs") in
    let bin_path := path_join d "schema.bin" in
    open_wb env bin_path ;;
    file_write bin_path etdump_flatbuffer ;;
    flatc_decompile env d schema_path bin_path ;;
    let output_path := path_join d "schema.json" in
    open_rb_read output_path).

Definition serialize_to_etdump (env : Env) (etdump : value) : io bytes :=
  _convert_to_flatbuffer env (_serialize_from_etdump_to_json etdump).

Definition deserialize_from_etdump (env : Env) (data : bytes) : io value :=
  etdump_json <- _convert_from_flatbuffer env data ;;
  lift (_deserialize_from_json_to_etdump env (Bytes etdump_json)).

(** ETDump FlatCC Schema Implementations *)

Definition _deserialize_from_json_to_etdump_flatcc (env : Env)
  (etdump_json : str_or_bytes) : result value :=
  match json_loads env etdump_json with
  | Ok j => _json_to_dataclass j (ETDumpFlatCC env)
  | Err e => Err e
  end.

Definition _convert_to_flatcc (env : Env) (etdump_json : pystr) : io bytes :=
  TemporaryDirectory env (fun d =>
    _write_schema env d ETDUMP_FLATCC_SCHEMA_NAME ;;
    _write_schema env d SCALAR_TYPE_SCHEMA_NAME ;;
    let schema_path := path_join d (ETDUMP_FLATCC_SCHEMA_NAME ++ ".fbs") in
    let json_path := path_join d (ETDUMP_FLATCC_SCHEMA_NAME ++ ".json") in
    open_wb env json_path ;;
    data <- lift (str_encode_ascii etdump_json) ;;
    file_write json_path data ;;
    flatc_compile env d schema_path json_path ;;
    let output_path := path_join d (ETDUMP_FLATCC_SCHEMA_NAME ++ ".etdp") in
    open_rb_read output_path).

Definition _convert_from_flatcc (env : Env) (etdump_flatbuffer : bytes)
  : io bytes :=
  TemporaryDirectory env (fun d =>
    _write_schema env d ETDUMP_FLATCC_SCHEMA_NAME ;;
    _write_schema env d SCALAR_TYPE_SCHEMA_NAME ;;
    let schema_path := path_join d (ETDUMP_FLATCC_SCHEMA_NAME ++ ".fbs") in
    let bin_path := path_join d "schema.bin" in
    open_wb env bin_path ;;
    file_write bin_path etdump_flatbuffer ;;
    flatc_decompile env d schema_path bin_path ;;
    let output_path := path_join d "schema.json" in
    open_rb_read output_path).

Definition serialize_to_etdump_flatcc (env : Env) (etdump : value)
  : io bytes :=
  _convert_to_flatcc env (_serialize_from_etdump_to_json etdump).

Definition deserialize_from_etdump_flatcc (env : Env) (data : bytes)
  : io value :=
  etdump_json <- _convert_from_flatcc env data ;;
  lift (_deserialize_from_json_to_etdump_flatcc env (Bytes etdump_json)).

End Serialize.

Import Serialize.


(** ** Notions used in the statements *)

Module Props.

Local Open Scope string_scope.

(** The two schema variants and the functions of each. *)
Inductive variant : Type := Legacy | Current.

Definition schema_name (V : variant) : string :=
  match V with
  | Legacy => ETDUMP_SCHEMA_NAME
  | Current => ETDUMP_FLATCC_SCHEMA_NAME
  end.

Definition schema_of (env : Env) (V : variant) : ty :=
  match V with
  | Legacy => ETDump env
  | Current => ETDumpFlatCC env
  end.

Definition decode_V (env : Env) (V : variant)
  : str_or_bytes -> result value :=
  match V with
  | Legacy => _deserialize_from_json_to_etdump env
  | Current => _deserialize_from_json_to_etdump_flatcc env
  end.

Definition convert_to_V (env : Env) (V : variant) : pystr -> io bytes :=
  match V with
  | Legacy => _convert_to_flatbuffer env
  | Current => _convert_to_flatcc env
  end.

Definition convert_from_V (env : Env) (V : variant) : bytes -> io bytes :=
  match V with
  | Legacy => _convert_from_flatbuffer env
  | Current => _convert_from_flatcc env
  end.

Definition serialize_V (env : Env) (V : variant) : value -> io bytes :=
  match V with
  | Legacy => serialize_to_etdump env
  | Current => serialize_to_etdump_flatcc env
  end.

Definition deserialize_V (env : Env) (V : variant) : bytes -> io value :=
  match V with
  | Legacy => deserialize_from_etdump env
  | Current => deserialize_from_etdump_flatcc env
  end.

(** The body shared by [_convert_to_flatbuffer] and [_convert_to_flatcc],
    and by [_convert_from_flatbuffer] and [_convert_from_flatcc], as a
    function of the schema name. *)
Definition convert_to_body (env : Env) (name : string) (etdump_json : pystr)
  (d : string) : io bytes :=
  (_write_schema env d name ;;
   _write_schema env d SCALAR_TYPE_SCHEMA_NAME ;;
   open_wb env (path_join d (name ++ ".json")) ;;
   data <- lift (str_encode_ascii etdump_json) ;;
   file_write (path_join d (name ++ ".json")) data ;;
   flatc_compile env d (path_join d (name ++ ".fbs"))
     (path_join d (name ++ ".json")) ;;
   open_rb_read (path_join d (name ++ ".etdp")))%io.

Definition convert_from_body (env : Env) (name : string)
  (etdump_flatbuffer : bytes) (d : string) : io bytes :=
  (_write_schema env d name ;;
   _write_schema env d SCALAR_TYPE_SCHEMA_NAME ;;
   open_wb env (path_join d "schema.bin") ;;
   file_write (path_join d "schema.bin") etdump_flatbuffer ;;
   flatc_decompile env d (path_join d (name ++ ".fbs"))
     (path_join d "schema.bin") ;;
   open_rb_read (path_join d "schema.json"))%io.

(** The environment lets every file be written. *)
Definition all_writable (env : Env) : Prop :=
  forall file, writable env file = true.

(** The package holds the schema of the variant and the scalar-type
    schema. *)
Definition has_schemas (env : Env) (V : variant) : Prop :=
  is_Some (resources env !! (schema_name V ++ ".fbs"))
  /\ is_Some (resources env !! (SCALAR_TYPE_SCHEMA_NAME ++ ".fbs")).



(** Plain ASCII bytes decode to their own characters. *)
Definition decodes_ascii (env : Env) : Prop :=
  forall b, is_plain_ascii b = true -> bytes_decode env b = Some (ascii_text b).


(** No file and no directory is left at or below [d]. *)
Definition workspace_gone (d : string) (s : filesystem) : Prop :=
  (d ∉ dirs s)
  /\ (forall file, under_dir d file = true -> files s !! file = None)
  /\ (forall dir, under_dir d dir = true -> dir ∉ dirs s).

(** A name that [os.path.join] appends to the directory. *)
Definition relative (n : string) : bool :=
  match n with
  | EmptyString => false
  | String c _ => negb (Ascii.eqb c "/"%char)
  end.

(** The files [serialize_V] and [deserialize_V] open, in order. *)
Definition staged_to (d name : string) : list event :=
  [ Opened (path_join d (name ++ ".fbs")) WB;
    Opened (path_join d (SCALAR_TYPE_SCHEMA_NAME ++ ".fbs")) WB;
    Opened (path_join d (name ++ ".json")) WB;
    Opened (path_join d (name ++ ".etdp")) RB ].

Definition staged_from (d name : string) : list event :=
  [ Opened (path_join d (name ++ ".fbs")) WB;
    Opened (path_join d (SCALAR_TYPE_SCHEMA_NAME ++ ".fbs")) WB;
    Opened (path_join d "schema.bin") WB;
    Opened (path_join d "schema.json") RB ].

(** The naming convention as the specification words it: the schema
    texts are [<schema-name>.schema], the JSON payload is
    [<schema-name>.json], the binary payload is [<schema-name>.] followed
    by an extension. *)
Definition follows_convention (d name file : string) : bool :=
  String.eqb file (path_join d (name ++ ".schema"))
  || String.eqb file (path_join d (SCALAR_TYPE_SCHEMA_NAME ++ ".schema"))
  || String.eqb file (path_join d (name ++ ".json"))
  || starts_with (path_join d (name ++ ".")) file.

(** *** Paths into a JSON document *)







End Props.

Import Props.

(** ** A concrete setting

    The example of the specification: a record with an unsigned integer
    field [count] and a tagged-union field [status], here with an
    optional sequence of strings as well; a package with the three
    schema files; an operating system that lets every file be written;
    and a compiler stand-in that transcodes in memory by copying the
    payload. *)

Module Example.

Local Open Scope string_scope.

Definition bytes_of (s : string) : bytes :=
  map Ascii.byte_of_ascii (String.list_ascii_of_string s).

Definition schema : ty :=
  TRecord
    [ Field (u "count") false (TScalar (TInt false 8));
      Field (u "status") false
        (TUnion [(u "ok", TScalar TBool); (u "err", TScalar TString)]);
      Field (u "notes") true (TSeq (TScalar TString)) ].

Definition record : value :=
  VRecord
    [ (u "count", VScalar (SInt false 8 7));
      (u "status", VUnion (u "ok") (VScalar (SBool true)));
      (u "notes", VSeq [VScalar (SString (u "a")); VScalar (SString [233])]) ].

Definition package : gmap string bytes :=
  {[ "etdump_schema.fbs" := bytes_of "table ETDump {}";
     "etdump_schema_flatcc.fbs" := bytes_of "table ETDumpFlatCC {}";
     "scalar_type.fbs" := bytes_of "enum ScalarType : byte {}" ]}.

Definition ascii_decode (b : bytes) : option pystr :=
  if is_plain_ascii b then Some (ascii_text b) else None.

Definition env : Env :=
  {| ETDump := schema;
     ETDumpFlatCC := schema;
     resources := package;
     tmpname := fun _ => "/tmp/tmpab12cd";
     writable := fun _ => true;
     flatc_to_binary := fun _ payload => Some payload;
     flatc_to_json := fun _ blob => Some blob;
     bytes_decode := ascii_decode |}.

(** The same setting with a read-only file system, and with a compiler
    that always fails. *)
Definition env_readonly : Env :=
  {| ETDump := schema;
     ETDumpFlatCC := schema;
     resources := package;
     tmpname := fun _ => "/tmp/tmpab12cd";
     writable := fun _ => false;
     flatc_to_binary := fun _ payload => Some payload;
     flatc_to_json := fun _ blob => Some blob;
     bytes_decode := ascii_decode |}.

Definition env_broken : Env :=
  {| ETDump := schema;
     ETDumpFlatCC := schema;
     resources := package;
     tmpname := fun _ => "/tmp/tmpab12cd";
     writable := fun _ => true;
     flatc_to_binary := fun _ _ => None;
     flatc_to_json := fun _ _ => None;
     bytes_decode := ascii_decode |}.

Definition empty_fs : filesystem := FS ∅ ∅ [].

Definition workspace : string := "/tmp/tmpab12cd".

(** The ASCII bytes of the JSON text of the record. *)
Definition payload : bytes :=
  match str_encode_ascii (_serialize_from_etdump_to_json record) with
  | Ok b => b
  | Err _ => []
  end.

(** The document of the record, and the same document without
    [status]. *)
Definition document : json := encode_tree record.


End Example.

(** ** What a conversion returns

    The result of the two conversion bodies written out as a function
    of the environment and of the name of the directory alone, to be
    compared with the bodies themselves. *)

Module Outcome.

Local Open Scope string_scope.

(** The result of [_convert_to_flatbuffer] and [_convert_to_flatcc] in
    directory [d]: the first step that fails gives the error. *)
Definition convert_to_outcome (env : Env) (V : variant) (text : pystr)
  (d : string) : result bytes :=
  let schema_path := path_join d (schema_name V ++ ".fbs") in
  let scalar_path := path_join d (SCALAR_TYPE_SCHEMA_NAME ++ ".fbs") in
  let json_path := path_join d (schema_name V ++ ".json") in
  if negb (writable env schema_path) then Err (WorkspaceIOError schema_path)
  else
    match resources env !! (schema_name V ++ ".fbs") with
    | None => Err (ResourceNotFoundError (schema_name V ++ ".fbs"))
    | Some schema =>
        if negb (writable env scalar_path)
        then Err (WorkspaceIOError scalar_path)
        else
          match resources env !! (SCALAR_TYPE_SCHEMA_NAME ++ ".fbs") with
          | None =>
              Err (ResourceNotFoundError (SCALAR_TYPE_SCHEMA_NAME ++ ".fbs"))
          | Some _ =>
              if negb (writable env json_path)
              then Err (WorkspaceIOError json_path)
              else
                match str_encode_ascii text with
                | Err e => Err e
                | Ok payload =>
                    match flatc_to_binary env schema payload with
                    | Some blob => Ok blob
                    | None => Err SchemaCompilerError
                    end
                end
          end
    end.

(** The result of [_convert_from_flatbuffer] and [_convert_from_flatcc]
    in directory [d]. *)
Definition convert_from_outcome (env : Env) (V : variant) (blob : bytes)
  (d : string) : result bytes :=
  let schema_path := path_join d (schema_name V ++ ".fbs") in
  let scalar_path := path_join d (SCALAR_TYPE_SCHEMA_NAME ++ ".fbs") in
  let bin_path := path_join d "schema.bin" in
  if negb (writable env schema_path) then Err (WorkspaceIOError schema_path)
  else
    match resources env !! (schema_name V ++ ".fbs") with
    | None => Err (ResourceNotFoundError (schema_name V ++ ".fbs"))
    | Some schema =>
        if negb (writable env scalar_path)
        then Err (WorkspaceIOError scalar_path)
        else
          match resources env !! (SCALAR_TYPE_SCHEMA_NAME ++ ".fbs") with
          | None =>
              Err (ResourceNotFoundError (SCALAR_TYPE_SCHEMA_NAME ++ ".fbs"))
          | Some _ =>
              if negb (writable env bin_path)
              then Err (WorkspaceIOError bin_path)
              else
                match flatc_to_json env schema blob with
                | Some text => Ok text
                | None => Err SchemaCompilerError
                end
          end
    end.

(** The file an event names. *)
Definition event_file (e : event) : string :=
  match e with Opened file _ => file end.

(** A package without the scalar-type schema, and a text that is not
    ASCII. *)
Definition env_no_scalar : Env :=
  {| ETDump := Example.schema;
     ETDumpFlatCC := Example.schema;
     resources := delete "scalar_type.fbs" Example.package;
     tmpname := fun _ => "/tmp/tmpab12cd";
     writable := fun _ => true;
     flatc_to_binary := fun _ payload => Some payload;
     flatc_to_json := fun _ blob => Some blob;
     bytes_decode := Example.ascii_decode |}.

Definition latin_text : pystr := [34; 233; 34]%N.

(** A file system that already holds files, one of them outside the
    temporary directory. *)
Definition busy_fs : filesystem :=
  FS {[ "/home/user/notes.txt" := Example.bytes_of "keep";
        "/tmp/tmpab12cd/etdump_schema.etdp" := Example.bytes_of "stale" ]}
     {[ "/home/user" ]} [].

(** The record of the example as a compiler may write it: on one line,
    after a blank and with a line end behind it. *)
Definition padded_payload : bytes :=
  match
    str_encode_ascii
      ([32] ++ dumps compact_fmt Example.document ++ [13; 10])%N%list
  with
  | Ok b => b
  | Err _ => []
  end.

End Outcome.

Import Outcome.

(** * Proofs *)

(** ** The JSON text round trip *)

Local Open Scope N_scope.

Module JsonFacts.

(** *** Hexadecimal escapes *)

Lemma hex_val_digit (d : N) : d < 16 -> hex_val (hex_digit d) = Some d.
Proof.
  intros Hd. unfold hex_val, hex_digit.
  destruct (N.ltb_spec d 10).
  - replace ((48 <=? 48 + d) && (48 + d <=? 57)) with true.
    + f_equal. lia.
    + symmetry. apply andb_true_iff. split; apply N.leb_le; lia.
  - replace ((48 <=? 87 + d) && (87 + d <=? 57)) with false.
    + replace ((97 <=? 87 + d) && (87 + d <=? 102)) with true.
      * f_equal. lia.
      * symmetry. apply andb_true_iff. split; apply N.leb_le; lia.
    + symmetry. apply andb_false_iff. right. apply N.leb_gt. lia.
Qed.

Lemma decode_hex4 (n : N) (r : pystr) :
  n < 0x10000 -> decode_uXXXX (hex4 n ++ r) = Some (n, r).
Proof.
  intros Hn. unfold hex4, decode_uXXXX. cbn [app].
  assert (H3 : (n / 4096) mod 16 < 16) by (apply N.mod_lt; lia).
  assert (H2 : (n / 256) mod 16 < 16) by (apply N.mod_lt; lia).
  assert (H1 : (n / 16) mod 16 < 16) by (apply N.mod_lt; lia).
  assert (H0 : n mod 16 < 16) by (apply N.mod_lt; lia).
  rewrite !hex_val_digit by assumption.
  f_equal. f_equal.
  pose proof (N.div_mod n 16 ltac:(lia)) as E0.
  pose proof (N.div_mod (n / 16) 16 ltac:(lia)) as E1.
  pose proof (N.div_mod (n / 256) 16 ltac:(lia)) as E2.
  assert (D1 : n / 16 / 16 = n / 256) by (rewrite N.Div0.div_div; reflexivity).
  assert (D2 : n / 256 / 16 = n / 4096) by (rewrite N.Div0.div_div; reflexivity).
  assert (S3 : n / 4096 < 16) by (apply N.Div0.div_lt_upper_bound; lia).
  rewrite (N.mod_small (n / 4096) 16) by assumption.
  rewrite D1 in E1. rewrite D2 in E2. lia.
Qed.

Lemma hex_digit_ascii (d : N) : d < 16 -> hex_digit d < 128.
Proof. unfold hex_digit. destruct (d <? 10); lia. Qed.

Lemma hex4_ascii (n : N) : Forall (fun c => c < 128) (hex4 n).
Proof.
  unfold hex4.
  repeat constructor; apply hex_digit_ascii; apply N.mod_lt; lia.
Qed.

(** *** Surrogate pairs *)

Lemma lor_low (a b k : N) : b < 2 ^ k -> N.lor (a * 2 ^ k) b = a * 2 ^ k + b.
Proof.
  intros Hb.
  assert (Hland : N.land (a * 2 ^ k) b = 0).
  { apply N.bits_inj. intros i. rewrite N.land_spec, N.bits_0.
    destruct (N.lt_ge_cases i k) as [Hi | Hi].
    - rewrite N.mul_pow2_bits_low by assumption. reflexivity.
    - replace (N.testbit b i) with (N.testbit (b mod 2 ^ k) i)
        by (rewrite N.mod_small by assumption; reflexivity).
      rewrite N.mod_pow2_bits_high by assumption.
      apply andb_false_r. }
  rewrite <- N.lxor_lor by assumption.
  symmetry. apply N.add_nocarry_lxor. assumption.
Qed.

Lemma surrogate_pair (c : N) :
  0x10000 <= c < 0x110000 ->
  let n := c - 0x10000 in
  let s1 := N.lor 0xd800 (N.land (N.shiftr n 10) 0x3ff) in
  let s2 := N.lor 0xdc00 (N.land n 0x3ff) in
  0xd800 <= s1 <= 0xdbff /\ 0xdc00 <= s2 <= 0xdfff /\
  0x10000 + N.lor (N.shiftl (s1 - 0xd800) 10) (s2 - 0xdc00) = c.
Proof.
  intros Hc n s1 s2.
  assert (Hn : n < 0x100000) by (unfold n; lia).
  assert (Hhi : N.land (N.shiftr n 10) 0x3ff = n / 1024).
  { change 0x3ff with (N.ones 10). rewrite N.land_ones.
    rewrite N.shiftr_div_pow2. change (2 ^ 10) with 1024.
    apply N.mod_small. apply N.Div0.div_lt_upper_bound. lia. }
  assert (Hlo : N.land n 0x3ff = n mod 1024).
  { change 0x3ff with (N.ones 10). rewrite N.land_ones. reflexivity. }
  assert (B1 : n / 1024 < 1024) by (apply N.Div0.div_lt_upper_bound; lia).
  assert (B2 : n mod 1024 < 1024) by (apply N.mod_lt; lia).
  assert (E1 : s1 = 0xd800 + n / 1024).
  { unfold s1. rewrite Hhi. change 0xd800 with (54 * 2 ^ 10).
    apply lor_low. exact B1. }
  assert (E2 : s2 = 0xdc00 + n mod 1024).
  { unfold s2. rewrite Hlo. change 0xdc00 with (55 * 2 ^ 10).
    apply lor_low. exact B2. }
  rewrite E1, E2.
  split; [lia | split; [lia |]].
  replace (0xd800 + n / 1024 - 0xd800) with (n / 1024) by lia.
  replace (0xdc00 + n mod 1024 - 0xdc00) with (n mod 1024) by lia.
  rewrite N.shiftl_mul_pow2. rewrite lor_low by exact B2.
  change (2 ^ 10) with 1024.
  pose proof (N.div_mod n 1024 ltac:(lia)). unfold n in *. lia.
Qed.

(** *** Strings *)

Lemma scan_char_u (t : pystr) :
  scan_char (92 :: 117 :: t) =
  match decode_uXXXX t with
  | None => None
  | Some (uni, r2) =>
      if (0xd800 <=? uni) && (uni <=? 0xdbff) then
        match r2 with
        | b :: v :: r3 =>
            if (b =? 92) && (v =? 117) then
              match decode_uXXXX r3 with
              | None => None
              | Some (uni2, r4) =>
                  if (0xdc00 <=? uni2) && (uni2 <=? 0xdfff) then
                    Some (0x10000 +
                            N.lor (N.shiftl (uni - 0xd800) 10)
                                  (uni2 - 0xdc00), r4)
                  else Some (uni, r2)
              end
            else Some (uni, r2)
        | _ => Some (uni, r2)
        end
      else Some (uni, r2)
  end.
Proof. reflexivity. Qed.

Lemma valid_char_spec (c : N) :
  valid_char c = true <-> c < 0xd800 \/ (0xdfff < c /\ c < 0x110000).
Proof.
  unfold valid_char.
  rewrite orb_true_iff, andb_true_iff, !N.ltb_lt. reflexivity.
Qed.

Lemma between_false (lo hi c : N) :
  c < lo \/ hi < c -> (lo <=? c) && (c <=? hi) = false.
Proof.
  intros [H | H]; apply andb_false_iff; [left | right]; apply N.leb_gt; lia.
Qed.

Lemma between_true (lo hi c : N) :
  lo <= c <= hi -> (lo <=? c) && (c <=? hi) = true.
Proof. intros [H1 H2]. apply andb_true_iff. split; apply N.leb_le; lia. Qed.

Lemma scan_char_escape (c : N) (r : pystr) :
  valid_char c = true -> scan_char (escape_char c ++ r) = Some (c, r).
Proof.
  intros Hv. apply valid_char_spec in Hv. unfold escape_char.
  destruct (N.eqb_spec c 34) as [-> | N34]; [reflexivity |].
  destruct (N.eqb_spec c 92) as [-> | N92]; [reflexivity |].
  destruct (N.eqb_spec c 8) as [-> | N8]; [reflexivity |].
  destruct (N.eqb_spec c 12) as [-> | N12]; [reflexivity |].
  destruct (N.eqb_spec c 10) as [-> | N10]; [reflexivity |].
  destruct (N.eqb_spec c 13) as [-> | N13]; [reflexivity |].
  destruct (N.eqb_spec c 9) as [-> | N9]; [reflexivity |].
  destruct ((32 <=? c) && (c <=? 126)) eqn:Hp.
  - apply andb_true_iff in Hp as [Hlo Hhi]. apply N.leb_le in Hlo.
    cbn [app]. unfold scan_char.
    rewrite (proj2 (N.eqb_neq c 92)) by assumption.
    rewrite (proj2 (N.ltb_ge c 32)) by assumption. reflexivity.
  - destruct (N.ltb_spec c 0x10000) as [Hs | Hs].
    + cbn [app]. rewrite scan_char_u, decode_hex4 by assumption.
      rewrite between_false by lia. reflexivity.
    + destruct (surrogate_pair c ltac:(lia)) as (B1 & B2 & E).
      cbv zeta in B1, B2, E.
      set (s1 := N.lor 0xd800 (N.land (N.shiftr (c - 0x10000) 10) 0x3ff)) in *.
      set (s2 := N.lor 0xdc00 (N.land (c - 0x10000) 0x3ff)) in *.
      cbv zeta. rewrite <- app_assoc. cbn [app].
      rewrite scan_char_u, decode_hex4 by lia.
      rewrite between_true by lia.
      cbn [app]. rewrite !N.eqb_refl. cbn [andb].
      rewrite decode_hex4 by lia.
      rewrite between_true by lia. rewrite E. reflexivity.
Qed.

Lemma escape_char_head (c : N) :
  exists c0 t, escape_char c = c0 :: t /\ c0 <> 34.
Proof.
  unfold escape_char.
  repeat match goal with
  | |- context [if ?x =? ?y then _ else _] =>
      destruct (N.eqb_spec x y); [eexists _, _; split; [reflexivity | lia] |]
  end.
  destruct ((32 <=? c) && (c <=? 126)).
  - eexists _, _; split; [reflexivity | assumption].
  - destruct (c <? 65536); eexists _, _; (split; [reflexivity | lia]).
Qed.

Lemma scanstring_loop_step (f : nat) (c : N) (t : pystr) :
  c <> 34 ->
  scanstring_loop (S f) (c :: t) =
  match scan_char (c :: t) with
  | None => None
  | Some (ch, r') =>
      match scanstring_loop f r' with
      | None => None
      | Some (s, r'') => Some (ch :: s, r'')
      end
  end.
Proof.
  intros Hc. cbn [scanstring_loop].
  rewrite (proj2 (N.eqb_neq c 34)) by assumption. reflexivity.
Qed.

Lemma scanstring_loop_escape (s r : pystr) (fuel : nat) :
  valid_str s = true -> (length s < fuel)%nat ->
  scanstring_loop fuel (flat_map escape_char s ++ 34 :: r) = Some (s, r).
Proof.
  revert fuel. induction s as [| c s IH]; intros fuel Hv Hf.
  - destruct fuel; [inversion Hf |]. reflexivity.
  - destruct fuel; [inversion Hf |].
    cbn [valid_str forallb] in Hv. apply andb_true_iff in Hv as [Hc Hs].
    cbn [flat_map]. rewrite <- app_assoc.
    destruct (escape_char_head c) as (c0 & t & Ec & Hc0).
    pose proof (scan_char_escape c (flat_map escape_char s ++ 34 :: r) Hc)
      as Hscan.
    rewrite Ec in Hscan |- *. cbn [app] in Hscan |- *.
    rewrite scanstring_loop_step by assumption.
    rewrite Hscan.
    rewrite IH; [reflexivity | exact Hs | cbn [length] in Hf; lia].
Qed.

Lemma escape_char_length (c : N) : (1 <= length (escape_char c))%nat.
Proof.
  destruct (escape_char_head c) as (c0 & t & -> & _). cbn. lia.
Qed.

Lemma flat_map_escape_length (s : pystr) :
  (length s <= length (flat_map escape_char s))%nat.
Proof.
  induction s as [| c s IH]; [reflexivity |].
  cbn [flat_map length]. rewrite length_app.
  pose proof (escape_char_length c). lia.
Qed.

(** Scanning what the encoder wrote for a string gives the string
    back. *)
Lemma scanstring_encode (s r : pystr) :
  valid_str s = true ->
  scanstring (flat_map escape_char s ++ 34 :: r) = Some (s, r).
Proof.
  intros Hv. unfold scanstring. apply scanstring_loop_escape; [assumption |].
  rewrite length_app. cbn [length].
  pose proof (flat_map_escape_length s). lia.
Qed.

(** *** Integers *)

Lemma digits_value_snoc (ds : pystr) (d : N) :
  digits_value (ds ++ [d]) = 10 * digits_value ds + (d - 48).
Proof. unfold digits_value. rewrite fold_left_app. reflexivity. Qed.

Lemma is_digit_spec (c : N) : is_digit c = true <-> 48 <= c <= 57.
Proof. unfold is_digit. rewrite andb_true_iff, !N.leb_le. reflexivity. Qed.

Lemma N_digits_spec (f : nat) (n : N) (acc : pystr) :
  n < 2 ^ N.of_nat f ->
  exists c t,
    N_digits (S f) n acc = (c :: t) ++ acc
    /\ forallb is_digit (c :: t) = true
    /\ digits_value (c :: t) = n
    /\ (0 < n -> c <> 48).
Proof.
  revert n acc. induction f as [| f IH]; intros n acc Hn.
  - change (2 ^ N.of_nat 0) with 1 in Hn. assert (n = 0) as -> by lia.
    exists 48, []. repeat split; try reflexivity. lia.
  - cbn [N_digits]. destruct (N.ltb_spec n 10) as [Hs | Hs].
    + exists (48 + n mod 10), []. rewrite N.mod_small by assumption.
      split; [reflexivity |]. split; [| split].
      * cbn [forallb]. rewrite andb_true_r. apply is_digit_spec. lia.
      * unfold digits_value. cbn [fold_left]. lia.
      * lia.
    + assert (Hq : n / 10 < 2 ^ N.of_nat f).
      { apply N.Div0.div_lt_upper_bound.
        rewrite Nat2N.inj_succ, N.pow_succ_r' in Hn.
        generalize dependent (2 ^ N.of_nat f). intros. lia. }
      destruct (IH (n / 10) ((48 + n mod 10) :: acc) Hq)
        as (c & t & E & Hd & Hval & Hnz).
      cbn [N_digits] in E. rewrite E.
      exists c, (t ++ [48 + n mod 10]).
      assert (Hm : n mod 10 < 10) by (apply N.mod_lt; lia).
      split; [| split; [| split]].
      * rewrite <- !app_comm_cons, <- app_assoc. reflexivity.
      * rewrite app_comm_cons, forallb_app, Hd. cbn [forallb andb].
        rewrite andb_true_r. apply is_digit_spec.
        clear - Hm. generalize dependent (n mod 10). intros; lia.
      * rewrite app_comm_cons, digits_value_snoc, Hval.
        pose proof (N.div_mod n 10 ltac:(lia)) as Hdm. clear - Hdm Hm.
        generalize dependent (n mod 10). generalize dependent (n / 10).
        intros; lia.
      * intros _. apply Hnz.
        apply N.div_str_pos. lia.
Qed.

Lemma N_repr_spec (n : N) :
  exists c t,
    N_repr n = c :: t
    /\ forallb is_digit (c :: t) = true
    /\ digits_value (c :: t) = n
    /\ (0 < n -> c <> 48).
Proof.
  unfold N_repr.
  destruct (N_digits_spec (N.to_nat (N.size n)) n []) as (c & t & E & H).
  - rewrite N2Nat.id. apply N.size_gt.
  - exists c, t. rewrite E, app_nil_r. split; [reflexivity | exact H].
Qed.

Lemma stops_float (r : pystr) : stops r = true -> float_follows r = false.
Proof.
  destruct r as [| c [| d r]]; try reflexivity.
  cbn [stops float_follows]. intros H.
  apply andb_true_iff in H as [H H69]. apply andb_true_iff in H as [H H101].
  apply andb_true_iff in H as [_ H46].
  apply negb_true_iff in H69, H101, H46.
  rewrite H46, H101, H69. reflexivity.
Qed.

Lemma span_digits_app (ds r : pystr) :
  forallb is_digit ds = true -> stops r = true ->
  span_digits (ds ++ r) = (ds, r).
Proof.
  intros Hd Hr. induction ds as [| c ds IH].
  - destruct r as [| c r]; [reflexivity |].
    cbn [app span_digits]. cbn [stops] in Hr.
    destruct (is_digit c); [discriminate | reflexivity].
  - cbn [forallb] in Hd. apply andb_true_iff in Hd as [Hc Hds].
    cbn [app span_digits]. rewrite Hc, (IH Hds). reflexivity.
Qed.

Lemma match_number_N_repr (n : N) (r : pystr) :
  0 < n -> stops r = true ->
  match_number (N_repr n ++ r) = Some (Z.of_N n, r).
Proof.
  intros Hn Hr.
  destruct (N_repr_spec n) as (c & t & E & Hd & Hval & Hnz).
  rewrite E. pose proof Hd as Hd'.
  cbn [forallb] in Hd'. apply andb_true_iff in Hd' as [Hc _].
  pose proof (proj1 (is_digit_spec c) Hc) as Hc'.
  unfold match_number. cbn [app].
  rewrite (proj2 (N.eqb_neq c 45)) by lia.
  rewrite Hc. cbn [negb].
  rewrite (proj2 (N.eqb_neq c 48)) by (apply Hnz; exact Hn).
  change (c :: t ++ r) with ((c :: t) ++ r).
  rewrite span_digits_app by assumption.
  rewrite stops_float by assumption. rewrite Hval. reflexivity.
Qed.

Lemma N_repr_head (n : N) :
  exists c t, N_repr n = c :: t /\ 48 <= c <= 57.
Proof.
  destruct (N_repr_spec n) as (c & t & E & Hd & _).
  exists c, t. split; [exact E |].
  cbn [forallb] in Hd. apply andb_true_iff in Hd as [Hc _].
  apply is_digit_spec. exact Hc.
Qed.

(** Matching what the encoder wrote for an integer gives it back. *)
Lemma match_number_int_repr (z : Z) (r : pystr) :
  stops r = true -> match_number (int_repr z ++ r) = Some (z, r).
Proof.
  intros Hr. destruct z as [| p | p]; cbn [int_repr].
  - unfold match_number. cbn. rewrite stops_float by assumption. reflexivity.
  - rewrite match_number_N_repr by (assumption || lia). reflexivity.
  - pose proof (match_number_N_repr (Npos p) r ltac:(lia) Hr) as H.
    destruct (N_repr_head (Npos p)) as (c & t & E & Hc).
    rewrite E in H |- *. unfold match_number in H |- *. cbn [app] in H |- *.
    rewrite N.eqb_refl. rewrite (proj2 (N.eqb_neq c 45)) in H by lia.
    destruct (negb (is_digit c)); [discriminate |].
    destruct (if c =? 48 then ([c], t ++ r) else span_digits (c :: t ++ r))
      as [ds r'].
    destruct (float_follows r'); [discriminate |].
    injection H as Hz ->. rewrite Hz. reflexivity.
Qed.

(** *** Whitespace and separators *)

Lemma skip_ws_app (w t : pystr) :
  forallb is_ws w = true -> skip_ws (w ++ t) = skip_ws t.
Proof.
  induction w as [| c w IH]; [reflexivity |].
  cbn [forallb app skip_ws]. intros H.
  apply andb_true_iff in H as [-> Hw]. exact (IH Hw).
Qed.

Lemma skip_ws_cons (c : N) (t : pystr) :
  is_ws c = false -> skip_ws (c :: t) = c :: t.
Proof. intros H. cbn [skip_ws]. rewrite H. reflexivity. Qed.

Lemma newline_indent_ws (f : fmt) (level : nat) :
  forallb is_ws (newline_indent f level) = true.
Proof.
  unfold newline_indent. destruct (indent f) as [n |]; [| reflexivity].
  cbn [forallb]. change (is_ws 10) with true. cbn [andb].
  induction (n * level)%nat as [| k IH]; [reflexivity |].
  cbn [repeat forallb]. rewrite IH. reflexivity.
Qed.

Lemma item_separator_ok (f : fmt) :
  fmt_ok f = true ->
  exists w, item_separator f = 44 :: w /\ forallb is_ws w = true.
Proof.
  unfold fmt_ok. intros H. apply andb_true_iff in H as [H _].
  destruct (item_separator f) as [| c w]; [discriminate |].
  apply andb_true_iff in H as [Hc Hw]. apply N.eqb_eq in Hc as ->.
  exists w. split; [reflexivity | exact Hw].
Qed.

Lemma skip_ws_ws (t : pystr) :
  exists w, t = w ++ skip_ws t /\ forallb is_ws w = true.
Proof.
  induction t as [| c t (w & E & Hw)].
  - exists []. split; reflexivity.
  - cbn [skip_ws]. destruct (is_ws c) eqn:Hc.
    + exists (c :: w). cbn [app forallb]. rewrite Hc, Hw, <- E.
      split; reflexivity.
    + exists []. split; reflexivity.
Qed.

Lemma key_separator_ok (f : fmt) :
  fmt_ok f = true ->
  exists w w', key_separator f = w ++ 58 :: w'
    /\ forallb is_ws w = true /\ forallb is_ws w' = true.
Proof.
  unfold fmt_ok. intros H. apply andb_true_iff in H as [_ H].
  destruct (skip_ws_ws (key_separator f)) as (w & E & Hw).
  destruct (skip_ws (key_separator f)) as [| c w']; [discriminate |].
  apply andb_true_iff in H as [Hc Hw']. apply N.eqb_eq in Hc as ->.
  exists w, w'. repeat split; assumption.
Qed.

Lemma value_start_facts (c : N) :
  value_start c = true ->
  is_ws c = false /\ c <> 93 /\ c <> 125 /\ c <> 44 /\ c <> 58.
Proof.
  unfold value_start, is_ws, is_digit. intros H.
  repeat (apply orb_true_iff in H as [H | H]);
    try (apply N.eqb_eq in H as ->; repeat split; (reflexivity || lia)).
  apply andb_true_iff in H as [H1 H2].
  apply N.leb_le in H1. apply N.leb_le in H2.
  rewrite !(proj2 (N.eqb_neq c _)) by lia.
  repeat split; (reflexivity || lia).
Qed.

Lemma iterencode_head (f : fmt) (level : nat) (j : json) :
  exists c t, iterencode f level j = c :: t /\ value_start c = true.
Proof.
  destruct j as [| [|] | z | s | [| x xs] | [| [k v] kvs]];
    try (eexists _, _; split; [reflexivity | reflexivity]).
  cbn [iterencode]. destruct z as [| p | p]; cbn [int_repr].
  - eexists _, _; split; reflexivity.
  - destruct (N_repr_head (N.pos p)) as (c & t & -> & Hc).
    exists c, t. split; [reflexivity |].
    unfold value_start. rewrite (proj2 (is_digit_spec c) Hc).
    apply orb_true_r.
  - eexists _, _; split; reflexivity.
Qed.

Lemma skip_ws_value (f : fmt) (level : nat) (j : json) (w r : pystr) :
  forallb is_ws w = true ->
  skip_ws (w ++ iterencode f level j ++ r) = iterencode f level j ++ r.
Proof.
  intros Hw. rewrite skip_ws_app by assumption.
  destruct (iterencode_head f level j) as (c & t & -> & Hc).
  apply skip_ws_cons. apply (value_start_facts c Hc).
Qed.

Lemma stops_cons (c : N) (t : pystr) :
  c = 44 \/ c = 93 \/ c = 125 \/ is_ws c = true -> stops (c :: t) = true.
Proof.
  unfold is_ws. intros [-> | [-> | [-> | H]]]; try reflexivity.
  repeat (apply orb_true_iff in H as [H | H]);
    apply N.eqb_eq in H as ->; reflexivity.
Qed.

Lemma stops_close (f : fmt) (level : nat) (c : N) (r : pystr) :
  c = 93 \/ c = 125 -> stops (newline_indent f level ++ c :: r) = true.
Proof.
  intros Hc. unfold newline_indent. destruct (indent f).
  - reflexivity.
  - apply stops_cons. tauto.
Qed.

Lemma stops_tail (f : fmt) (t : pystr) :
  fmt_ok f = true -> stops (item_separator f ++ t) = true.
Proof.
  intros Hf. destruct (item_separator_ok f Hf) as (w & -> & _). reflexivity.
Qed.

Lemma skip_ws_close (f : fmt) (level : nat) (c : N) (r : pystr) :
  c = 93 \/ c = 125 -> skip_ws (newline_indent f level ++ c :: r) = c :: r.
Proof.
  intros Hc. rewrite skip_ws_app by apply newline_indent_ws.
  apply skip_ws_cons. destruct Hc as [-> | ->]; reflexivity.
Qed.

(** *** Unfolding the encoder *)

Lemma iterencode_arr (f : fmt) (level : nat) (x : json) (xs : list json) :
  iterencode f level (JArr (x :: xs)) =
  91 :: newline_indent f (S level) ++ iterencode f (S level) x
    ++ items_tail f level xs ++ newline_indent f level ++ [93].
Proof.
  cbn [iterencode]. do 3 f_equal. apply (f_equal (fun t => t ++ _)).
  induction xs as [| y ys IH]; [reflexivity |].
  cbn [items_tail]. rewrite <- IH. reflexivity.
Qed.

Lemma iterencode_obj (f : fmt) (level : nat) (k : pystr) (v : json)
  (kvs : list (pystr * json)) :
  iterencode f level (JObj ((k, v) :: kvs)) =
  123 :: newline_indent f (S level)
    ++ encode_basestring_ascii k ++ key_separator f
    ++ iterencode f (S level) v
    ++ members_tail f level kvs ++ newline_indent f level ++ [125].
Proof.
  cbn [iterencode]. do 5 f_equal. apply (f_equal (fun t => t ++ _)).
  induction kvs as [| [k' v'] l IH]; [reflexivity |].
  cbn [members_tail]. rewrite <- IH. reflexivity.
Qed.

(** *** The loops of the array and object parsers *)

Section Loops.

Variable scan : pystr -> option (json * pystr).
Variable f : fmt.
Hypothesis Hf : fmt_ok f = true.
Variable level : nat.

Lemma JSONArray_loop_items (xs : list json) :
  forall (x : json) (r : pystr) (fuel : nat),
    Forall (scans scan f level) (x :: xs) -> (length xs < fuel)%nat ->
    JSONArray_loop scan fuel
      (iterencode f (S level) x ++ items_tail f level xs
         ++ newline_indent f level ++ 93 :: r)
    = Some (x :: xs, r).
Proof.
  induction xs as [| y ys IH]; intros x r fuel Hall Hfuel;
    (destruct fuel as [| fuel]; [inversion Hfuel |]);
    inversion Hall as [| ? ? Hx Hrest]; subst; cbn [JSONArray_loop].
  - cbn [items_tail app].
    rewrite Hx by (apply stops_close; tauto).
    rewrite skip_ws_close by tauto. reflexivity.
  - cbn [items_tail]. rewrite <- !app_assoc.
    rewrite Hx by (apply stops_tail; exact Hf).
    destruct (item_separator_ok f Hf) as (w & -> & Hw).
    cbn [app]. rewrite skip_ws_cons by reflexivity.
    cbn [N.eqb Pos.eqb]. rewrite app_assoc.
    rewrite skip_ws_value
      by (rewrite forallb_app, Hw; apply newline_indent_ws).
    rewrite IH; [reflexivity | exact Hrest | cbn [length] in Hfuel; lia].
Qed.

Lemma items_tail_length (xs : list json) :
  (length xs <= length (items_tail f level xs))%nat.
Proof.
  destruct (item_separator_ok f Hf) as (w & Hw & _).
  induction xs as [| y ys IH]; [reflexivity |].
  cbn [items_tail length]. rewrite Hw. cbn [app length].
  rewrite !length_app. lia.
Qed.

Lemma JSONArray_items (x : json) (xs : list json) (r : pystr) :
  Forall (scans scan f level) (x :: xs) ->
  JSONArray scan
    (newline_indent f (S level) ++ iterencode f (S level) x
       ++ items_tail f level xs ++ newline_indent f level ++ 93 :: r)
  = Some (x :: xs, r).
Proof.
  intros Hall. unfold JSONArray.
  rewrite skip_ws_value by apply newline_indent_ws.
  destruct (iterencode_head f (S level) x) as (c & t & E & Hc).
  pose proof (JSONArray_loop_items xs x r) as Hloop.
  rewrite E in Hloop |- *. cbn [app] in Hloop |- *.
  destruct (value_start_facts c Hc) as (_ & H93 & _).
  rewrite (proj2 (N.eqb_neq c 93)) by assumption.
  apply Hloop; [exact Hall |].
  rewrite !length_app. cbn [length]. rewrite !length_app. cbn [length].
  pose proof (items_tail_length xs). lia.
Qed.

Lemma skip_key_separator :
  exists w, forallb is_ws w = true
    /\ forall t, skip_ws (key_separator f ++ t) = 58 :: w ++ t.
Proof.
  destruct (key_separator_ok f Hf) as (w1 & w2 & Ek & Hw1 & Hw2).
  exists w2. split; [exact Hw2 |]. intros t.
  rewrite Ek, <- app_assoc. cbn [app].
  rewrite skip_ws_app by assumption. apply skip_ws_cons. reflexivity.
Qed.

Lemma JSONObject_loop_members (kvs : list (pystr * json)) :
  forall (k : pystr) (v : json) (r : pystr) (fuel : nat),
    Forall (fun kv => valid_str (fst kv) = true /\ scans scan f level (snd kv))
      ((k, v) :: kvs) ->
    (length kvs < fuel)%nat ->
    JSONObject_loop scan fuel
      (flat_map escape_char k ++ 34 :: key_separator f
         ++ iterencode f (S level) v ++ members_tail f level kvs
         ++ newline_indent f level ++ 125 :: r)
    = Some ((k, v) :: kvs, r).
Proof.
  destruct skip_key_separator as (w2 & Hw2 & Hskip).
  induction kvs as [| [k' v'] l IH]; intros k v r fuel Hall Hfuel;
    (destruct fuel as [| fuel]; [inversion Hfuel |]);
    inversion Hall as [| ? ? [Hk Hv] Hrest]; subst;
    cbn [fst snd] in Hk, Hv; cbn [JSONObject_loop];
    rewrite scanstring_encode by assumption;
    rewrite Hskip; cbn [N.eqb Pos.eqb negb].
  - cbn [members_tail app].
    rewrite skip_ws_value by assumption.
    rewrite Hv by (apply stops_close; tauto).
    rewrite skip_ws_close by tauto. reflexivity.
  - cbn [members_tail]. rewrite <- !app_assoc.
    rewrite skip_ws_value by assumption.
    rewrite Hv by (apply stops_tail; exact Hf).
    destruct (item_separator_ok f Hf) as (w & -> & Hw).
    cbn [app]. rewrite skip_ws_cons by reflexivity.
    cbn [N.eqb Pos.eqb]. rewrite app_assoc.
    rewrite skip_ws_app
      by (rewrite forallb_app, Hw; apply newline_indent_ws).
    unfold encode_basestring_ascii. cbn [app].
    rewrite skip_ws_cons by reflexivity.
    cbn [N.eqb Pos.eqb]. rewrite <- !app_assoc. cbn [app].
    rewrite IH; [reflexivity | exact Hrest | cbn [length] in Hfuel; lia].
Qed.

Lemma members_tail_length (kvs : list (pystr * json)) :
  (length kvs <= length (members_tail f level kvs))%nat.
Proof.
  destruct (item_separator_ok f Hf) as (w & Hw & _).
  induction kvs as [| [k v] l IH]; [reflexivity |].
  cbn [members_tail length]. rewrite Hw. cbn [app length].
  rewrite !length_app. lia.
Qed.

Lemma JSONObject_members (k : pystr) (v : json) (kvs : list (pystr * json))
  (r : pystr) :
  Forall (fun kv => valid_str (fst kv) = true /\ scans scan f level (snd kv))
    ((k, v) :: kvs) ->
  JSONObject scan
    (newline_indent f (S level) ++ encode_basestring_ascii k
       ++ key_separator f ++ iterencode f (S level) v
       ++ members_tail f level kvs ++ newline_indent f level ++ 125 :: r)
  = Some ((k, v) :: kvs, r).
Proof.
  intros Hall. unfold JSONObject.
  rewrite skip_ws_app by apply newline_indent_ws.
  unfold encode_basestring_ascii. cbn [app].
  rewrite skip_ws_cons by reflexivity. cbn [N.eqb Pos.eqb].
  rewrite <- !app_assoc. cbn [app].
  apply JSONObject_loop_members; [exact Hall |].
  rewrite !length_app. cbn [length]. rewrite !length_app. cbn [length].
  rewrite !length_app. cbn [length].
  pose proof (members_tail_length kvs). lia.
Qed.

End Loops.

(** *** The scanner on encoded values *)

Lemma scan_once_arr (fuel : nat) (t : pystr) :
  scan_once (S fuel) (91 :: t) =
  match JSONArray (scan_once fuel) t with
  | Some (values, r') => Some (JArr values, r')
  | None => None
  end.
Proof. reflexivity. Qed.

Lemma scan_once_obj (fuel : nat) (t : pystr) :
  scan_once (S fuel) (123 :: t) =
  match JSONObject (scan_once fuel) t with
  | Some (pairs, r') => Some (JObj pairs, r')
  | None => None
  end.
Proof. reflexivity. Qed.

Lemma scan_once_number (fuel : nat) (c : N) (t : pystr) :
  c = 45 \/ 48 <= c <= 57 ->
  scan_once (S fuel) (c :: t) =
  match match_number (c :: t) with
  | Some (z, r') => Some (JInt z, r')
  | None => None
  end.
Proof.
  intros Hc. cbn [scan_once].
  rewrite !(proj2 (N.eqb_neq c _)) by lia.
  change (u "null") with [110; 117; 108; 108].
  change (u "true") with [116; 114; 117; 101].
  change (u "false") with [102; 97; 108; 115; 101].
  cbn [strip_prefix].
  rewrite !(proj2 (N.eqb_neq _ c)) by lia. reflexivity.
Qed.

Lemma depth_item (x : json) (l : list json) :
  In x l -> (depth x <= foldr (fun y d => Nat.max (depth y) d) 0 l)%nat.
Proof.
  induction l as [| y l IH]; [intros [] |].
  cbn [In foldr]. intros [-> | H]; [lia | specialize (IH H); lia].
Qed.

Lemma depth_member (kv : pystr * json) (m : list (pystr * json)) :
  In kv m ->
  (depth (snd kv) <= foldr (fun y d => Nat.max (depth (snd y)) d) 0 m)%nat.
Proof.
  induction m as [| y m IH]; [intros [] |].
  cbn [In foldr]. intros [-> | H]; [lia | specialize (IH H); lia].
Qed.

(** Scanning what the encoder wrote for a value gives the value back,
    whatever whitespace the format puts between the tokens. *)
Lemma scan_once_iterencode (f : fmt) (j : json) :
  fmt_ok f = true -> json_ok j = true ->
  forall (level fuel : nat) (r : pystr),
    (depth j < fuel)%nat -> stops r = true ->
    scan_once fuel (iterencode f level j ++ r) = Some (j, r).
Proof.
  intros Hf. induction j as [| b | z | s | l IH | m IH] using json_ind;
    intros Hok level fuel r Hfuel Hr;
    (destruct fuel as [| fuel]; [inversion Hfuel |]).
  - reflexivity.
  - destruct b; reflexivity.
  - cbn [iterencode].
    pose proof (match_number_int_repr z r Hr) as Hm.
    assert (Hhead : exists c t, int_repr z = c :: t
                                /\ (c = 45 \/ 48 <= c <= 57)).
    { destruct z as [| p | p]; cbn [int_repr].
      - exists 48, []. split; [reflexivity | lia].
      - destruct (N_repr_head (N.pos p)) as (c & t & E & Hc).
        exists c, t. split; [exact E | right; exact Hc].
      - eexists _, _. split; [reflexivity | left; reflexivity]. }
    destruct Hhead as (c & t & E & Hc). rewrite E in Hm |- *.
    cbn [app] in Hm |- *. rewrite scan_once_number by exact Hc.
    rewrite Hm. reflexivity.
  - cbn [iterencode json_ok] in Hok |- *. unfold encode_basestring_ascii.
    cbn [app scan_once N.eqb Pos.eqb]. rewrite <- app_assoc. cbn [app].
    rewrite scanstring_encode by assumption. reflexivity.
  - destruct l as [| x xs]; [reflexivity |].
    rewrite iterencode_arr. cbn [app]. rewrite <- !app_assoc. cbn [app].
    rewrite scan_once_arr.
    rewrite (JSONArray_items (scan_once fuel) f Hf level x xs r);
      [reflexivity |].
    cbn [json_ok] in Hok. rewrite forallb_forall in Hok.
    rewrite List.Forall_forall in IH |- *. intros y Hy r' Hr'.
    apply IH; [exact Hy | apply Hok; exact Hy | | exact Hr'].
    cbn [depth] in Hfuel. pose proof (depth_item y (x :: xs) Hy). lia.
  - destruct m as [| [k v] kvs]; [reflexivity |].
    rewrite iterencode_obj. cbn [app]. rewrite <- !app_assoc. cbn [app].
    rewrite scan_once_obj.
    rewrite (JSONObject_members (scan_once fuel) f Hf level k v kvs r);
      [reflexivity |].
    cbn [json_ok] in Hok. rewrite forallb_forall in Hok.
    rewrite List.Forall_forall in IH |- *. intros kv Hkv.
    specialize (Hok kv Hkv). apply andb_true_iff in Hok as [Hk Hv].
    split; [exact Hk |]. intros r' Hr'.
    apply IH; [exact Hkv | exact Hv | | exact Hr'].
    cbn [depth] in Hfuel.
    pose proof (depth_member kv ((k, v) :: kvs) Hkv). lia.
Qed.

Lemma depth_length (f : fmt) (level : nat) (j : json) :
  fmt_ok f = true -> (depth j < length (iterencode f level j))%nat.
Proof.
  intros Hf. revert level.
  induction j as [| b | z | s | l IH | m IH] using json_ind; intros level.
  - cbn. lia.
  - destruct b; cbn; lia.
  - destruct (iterencode_head f level (JInt z)) as (c & t & -> & _).
    cbn. lia.
  - cbn. lia.
  - destruct l as [| x xs]; [cbn; lia |].
    rewrite iterencode_arr. cbn [depth length]. rewrite !length_app.
    assert (H : forall l' : list json, Forall (fun j =>
                forall level, (depth j < length (iterencode f level j))%nat)
                l' ->
              (foldr (fun y d => Nat.max (depth y) d) 0 l'
               <= length (items_tail f level l'))%nat).
    { induction 1 as [| y l' Hy _ IHl]; [cbn; lia |].
      cbn [foldr items_tail]. rewrite !length_app.
      specialize (Hy (S level)). lia. }
    inversion IH as [| ? ? Hx Hxs]; subst.
    specialize (H xs Hxs). specialize (Hx (S level)).
    cbn [foldr length]. lia.
  - destruct m as [| [k v] kvs]; [cbn; lia |].
    rewrite iterencode_obj. cbn [depth length]. rewrite !length_app.
    assert (H : forall l' : list (pystr * json), Forall (fun kv =>
                forall level,
                  (depth (snd kv) < length (iterencode f level (snd kv)))%nat)
                l' ->
              (foldr (fun y d => Nat.max (depth (snd y)) d) 0 l'
               <= length (members_tail f level l'))%nat).
    { induction 1 as [| [k' v'] l' Hy _ IHl]; [cbn; lia |].
      cbn [foldr members_tail snd] in *. rewrite !length_app.
      specialize (Hy (S level)). lia. }
    inversion IH as [| ? ? Hx Hxs]; subst.
    specialize (H kvs Hxs). specialize (Hx (S level)).
    cbn [foldr length snd] in *. lia.
Qed.

(** [json.loads(json.dumps(j))] is [j], for every format that differs
    from the compact one by whitespace only. *)
Lemma loads_dumps (f : fmt) (j : json) :
  fmt_ok f = true -> json_ok j = true -> loads_str (dumps f j) = Some j.
Proof.
  intros Hf Hok. unfold loads_str, dumps.
  destruct (iterencode_head f 0 j) as (c & t & E & Hc).
  rewrite E, skip_ws_cons by apply (value_start_facts c Hc).
  rewrite <- E, <- (app_nil_r (iterencode f 0 j)).
  rewrite scan_once_iterencode; try assumption || reflexivity.
  rewrite app_nil_r. pose proof (depth_length f 0 j Hf). lia.
Qed.

End JsonFacts.

Import JsonFacts.

(** ** The tree codec round trip *)

Module CodecFacts.

Lemma dict_get_None (k : pystr) (d : list (pystr * json)) :
  ~ In k (map fst d) -> dict_get k d = None.
Proof.
  induction d as [| [k0 v0] d IH]; [reflexivity |].
  cbn [map fst In dict_get]. intros H.
  rewrite IH by tauto. destruct (decide (k0 = k)); [tauto | reflexivity].
Qed.

Lemma dict_get_In (k : pystr) (v : json) (d : list (pystr * json)) :
  List.NoDup (map fst d) -> In (k, v) d -> dict_get k d = Some v.
Proof.
  induction d as [| [k0 v0] d IH]; [intros _ [] |].
  cbn [map fst In dict_get]. intros Hnd [E | Hin].
  - injection E as -> ->. inversion Hnd; subst.
    rewrite dict_get_None by assumption.
    destruct (decide (k = k)); [reflexivity | congruence].
  - inversion Hnd; subst. rewrite (IH ltac:(assumption) Hin). reflexivity.
Qed.

Lemma is_null_encode (v : value) :
  is_null (encode_tree v) = true -> v = VNone.
Proof. destruct v as [[] | | | |]; (discriminate || reflexivity). Qed.

Lemma valid_fields_names (val : ty -> value -> bool) (fl : list field)
  (vl : list (pystr * value)) :
  valid_fields val fl vl = true -> map fname fl = map fst vl.
Proof.
  revert vl. induction fl as [| fld fl IH]; intros [| kv vl] H;
    try discriminate; [reflexivity |].
  cbn [valid_fields] in H. apply andb_true_iff in H as [Hf Hr].
  unfold valid_field in Hf. apply andb_true_iff in Hf as [Hn _].
  apply bool_decide_eq_true in Hn. cbn [map]. rewrite Hn, (IH vl Hr).
  reflexivity.
Qed.

Lemma decode_fields_valid (members : list (pystr * json)) (fl : list field) :
  forall vl,
    Forall (fun f => round_trips (ftype f)) fl ->
    forallb (fun fld => valid_str (fname fld) && wf_ty (ftype fld)) fl = true ->
    valid_fields valid fl vl = true ->
    (forall kv, In kv vl ->
       dict_get (fst kv) members = Some (encode_tree (snd kv))) ->
    forallb (fun kv => valid_str (fst kv) && json_ok (snd kv))
      (map (fun kv => (fst kv, encode_tree (snd kv))) vl) = true
    /\ decode_fields _json_to_dataclass members fl = Ok vl.
Proof.
  induction fl as [| fld fl IH]; intros [| [k x] vl] Hrt Hwf Hval Hget;
    try discriminate; [split; reflexivity |].
  inversion Hrt as [| ? ? Hfld Hrest]; subst.
  cbn [forallb] in Hwf. apply andb_true_iff in Hwf as [Hwf1 Hwf2].
  apply andb_true_iff in Hwf1 as [Hname Hwft].
  cbn [valid_fields] in Hval. apply andb_true_iff in Hval as [Hv1 Hv2].
  unfold valid_field in Hv1. apply andb_true_iff in Hv1 as [Hn Hx].
  apply bool_decide_eq_true in Hn. cbn [fst snd] in Hn, Hx.
  destruct (IH vl Hrest Hwf2 Hv2) as [Hok Hdec].
  { intros kv Hkv. apply Hget. right. exact Hkv. }
  pose proof (Hget (k, x) (or_introl eq_refl)) as Hgx. cbn [fst snd] in Hgx.
  destruct fld as [name opt ft]. cbn [fname foptional ftype] in *. subst k.
  assert (Hone : json_ok (encode_tree x) = true
                 /\ decode_field _json_to_dataclass members
                      (Field name opt ft) = Ok x).
  { unfold decode_field. rewrite Hgx.
    destruct (opt && is_null (encode_tree x)) eqn:Hnull.
    - apply andb_true_iff in Hnull as [_ Hnull].
      apply is_null_encode in Hnull as ->. split; reflexivity.
    - assert (Hvx : valid ft x = true).
      { destruct x; try exact Hx. subst opt. discriminate. }
      destruct (Hfld Hwft x Hvx) as [Hjx ->]. split; [exact Hjx | reflexivity]. }
  destruct Hone as [Hjx Hdx]. split.
  - cbn [map forallb fst snd]. rewrite Hname, Hjx. exact Hok.
  - cbn [decode_fields]. rewrite Hdx, Hdec. reflexivity.
Qed.

Lemma decode_items_valid (elem : ty) (xs : list value) :
  round_trips elem -> wf_ty elem = true ->
  forallb (valid elem) xs = true ->
  forall i,
    forallb json_ok (map encode_tree xs) = true
    /\ decode_items _json_to_dataclass elem i (map encode_tree xs) = Ok xs.
Proof.
  intros Hrt Hwf. induction xs as [| x xs IH]; intros Hval i;
    [split; reflexivity |].
  cbn [forallb] in Hval. apply andb_true_iff in Hval as [Hx Hxs].
  destruct (Hrt Hwf x Hx) as [Hjx Hdx].
  destruct (IH Hxs (S i)) as [Hok Hdec].
  cbn [map forallb decode_items]. rewrite Hjx, Hdx, Hdec, Hok.
  split; reflexivity.
Qed.

Lemma dict_get_discriminator (tag : pystr) (j : json) :
  dict_get DISCRIMINATOR [(DISCRIMINATOR, JStr tag); (PAYLOAD, j)]
  = Some (JStr tag).
Proof.
  cbn [dict_get].
  destruct (decide (PAYLOAD = DISCRIMINATOR)) as [E | _]; [discriminate E |].
  destruct (decide (DISCRIMINATOR = DISCRIMINATOR)); [reflexivity | congruence].
Qed.

Lemma dict_get_payload (tag : pystr) (j : json) :
  dict_get PAYLOAD [(DISCRIMINATOR, JStr tag); (PAYLOAD, j)] = Some j.
Proof.
  cbn [dict_get].
  destruct (decide (PAYLOAD = PAYLOAD)); [reflexivity | congruence].
Qed.

Lemma decode_variant_valid (tag : pystr) (p : value)
  (variants : list (pystr * ty)) :
  Forall (fun nv => round_trips (snd nv)) variants ->
  forallb (fun nv => valid_str (fst nv) && wf_ty (snd nv)) variants = true ->
  valid_variant valid tag p variants = true ->
  (valid_str tag = true /\ json_ok (encode_tree p) = true)
  /\ decode_variant _json_to_dataclass
       [(DISCRIMINATOR, JStr tag); (PAYLOAD, encode_tree p)] tag variants
     = Ok (VUnion tag p).
Proof.
  induction variants as [| [n vt] vs IH]; intros Hrt Hwf Hval;
    [discriminate |].
  inversion Hrt as [| ? ? Hone Hrest]; subst.
  cbn [forallb fst snd] in Hwf. apply andb_true_iff in Hwf as [Hwf1 Hwf2].
  apply andb_true_iff in Hwf1 as [Hname Hwft].
  cbn [valid_variant decode_variant fst snd] in Hval |- *.
  destruct (decide (n = tag)) as [-> | Hne].
  - destruct (Hone Hwft p Hval) as [Hjp Hdp]. cbn [snd] in Hdp.
    rewrite dict_get_payload, Hdp. repeat split; assumption.
  - apply IH; assumption.
Qed.

(** Decoding the encoding of a valid value gives the value back, and
    the encoding only holds Unicode text. *)
Lemma decode_encode_tree (t : ty) : round_trips t.
Proof.
  induction t as [st | fields IH | elem IH | variants IH] using ty_ind;
    intros Hwf v Hval.
  - destruct st as [sg w | |], v as [[sg' w' z | b | s] | | | |];
      try discriminate; cbn [valid valid_scalar] in Hval;
      cbn [encode_tree _json_to_dataclass decode_scalar json_ok].
    + apply andb_true_iff in Hval as [Hval _].
      apply andb_true_iff in Hval as [Hsg Hw].
      apply eqb_prop in Hsg as ->. apply N.eqb_eq in Hw as ->.
      split; reflexivity.
    + split; reflexivity.
    + split; [exact Hval | reflexivity].
  - destruct v as [| fs | | |]; try discriminate.
    cbn [valid wf_ty] in Hval, Hwf.
    apply andb_true_iff in Hwf as [Hnd Hwf].
    apply bool_decide_eq_true in Hnd.
    rewrite (valid_fields_names valid fields fs Hval) in Hnd.
    apply NoDup_ListNoDup in Hnd.
    cbn [encode_tree _json_to_dataclass json_ok].
    destruct (decode_fields_valid
                (map (fun kv => (fst kv, encode_tree (snd kv))) fs)
                fields fs IH Hwf Hval) as [Hok Hdec].
    + intros [k x] Hkx. apply dict_get_In.
      * rewrite map_map. cbn [fst]. exact Hnd.
      * apply (in_map (fun kv => (fst kv, encode_tree (snd kv))) fs (k, x) Hkx).
    + rewrite Hdec. split; [exact Hok | reflexivity].
  - destruct v as [| | xs | |]; try discriminate.
    cbn [valid wf_ty] in Hval, Hwf.
    cbn [encode_tree _json_to_dataclass json_ok].
    destruct (decode_items_valid elem xs IH Hwf Hval 0%nat) as [Hok Hdec].
    rewrite Hdec. split; [exact Hok | reflexivity].
  - destruct v as [| | | tag p |]; try discriminate.
    cbn [valid wf_ty] in Hval, Hwf.
    cbn [encode_tree _json_to_dataclass].
    rewrite dict_get_discriminator.
    destruct (decode_variant_valid tag p variants IH Hwf Hval)
      as [[Htag Hjp] Hdec].
    rewrite Hdec. split; [| reflexivity].
    cbn [json_ok forallb fst snd]. rewrite Htag, Hjp. reflexivity.
Qed.

End CodecFacts.

Import CodecFacts.

(** ** The JSON text of a record *)

Module TextFacts.

(** *** The encoder writes ASCII *)

Lemma hex_digit_range (d : N) : d < 16 -> ascii_char (hex_digit d).
Proof. unfold hex_digit, ascii_char. destruct (d <? 10); lia. Qed.

Lemma hex4_range (n : N) : Forall ascii_char (hex4 n).
Proof.
  unfold hex4.
  repeat constructor; apply hex_digit_range; apply N.mod_lt; lia.
Qed.

Lemma escape_char_range (c : N) : Forall ascii_char (escape_char c).
Proof.
  unfold escape_char.
  repeat match goal with
  | |- context [if ?x =? ?y then _ else _] =>
      destruct (N.eqb_spec x y);
      [repeat constructor; unfold ascii_char; lia |]
  end.
  destruct ((32 <=? c) && (c <=? 126)) eqn:Hp.
  - apply andb_true_iff in Hp as [Hlo Hhi].
    apply N.leb_le in Hlo. apply N.leb_le in Hhi.
    repeat constructor; unfold ascii_char; lia.
  - destruct (c <? 65536).
    + do 2 (apply List.Forall_cons; [unfold ascii_char; lia |]).
      apply hex4_range.
    + cbv zeta. apply Forall_app. split;
        (do 2 (apply List.Forall_cons; [unfold ascii_char; lia |]);
         apply hex4_range).
Qed.

Lemma encode_basestring_range (s : pystr) :
  Forall ascii_char (encode_basestring_ascii s).
Proof.
  unfold encode_basestring_ascii. apply List.Forall_cons.
  - unfold ascii_char; lia.
  - apply Forall_app. split.
    + induction s as [| c s IH]; [constructor |].
      cbn [flat_map]. apply Forall_app. split;
        [apply escape_char_range | exact IH].
    + repeat constructor; unfold ascii_char; lia.
Qed.

Lemma N_repr_range (n : N) : Forall ascii_char (N_repr n).
Proof.
  destruct (N_repr_spec n) as (c & t & -> & Hd & _).
  rewrite forallb_forall in Hd. apply List.Forall_forall. intros x Hx.
  specialize (Hd x Hx). apply is_digit_spec in Hd. unfold ascii_char. lia.
Qed.

Lemma int_repr_range (z : Z) : Forall ascii_char (int_repr z).
Proof.
  destruct z as [| p | p]; cbn [int_repr].
  - repeat constructor; unfold ascii_char; lia.
  - apply N_repr_range.
  - apply List.Forall_cons; [unfold ascii_char; lia | apply N_repr_range].
Qed.

Lemma newline_indent_range (f : fmt) (level : nat) :
  Forall ascii_char (newline_indent f level).
Proof.
  unfold newline_indent. destruct (indent f) as [n |]; [| constructor].
  apply List.Forall_cons; [unfold ascii_char; lia |].
  induction (n * level)%nat as [| k IH]; [constructor |].
  cbn [repeat]. apply List.Forall_cons; [unfold ascii_char; lia | exact IH].
Qed.

(** Every character of an encoded value is ASCII, when those of the
    separators are. *)
Lemma iterencode_range (f : fmt) (j : json) :
  Forall ascii_char (item_separator f) ->
  Forall ascii_char (key_separator f) ->
  forall level, Forall ascii_char (iterencode f level j).
Proof.
  intros Hi Hk.
  induction j as [| b | z | s | l IH | m IH] using json_ind; intros level.
  - repeat constructor; unfold ascii_char; lia.
  - destruct b; repeat constructor; unfold ascii_char; lia.
  - apply int_repr_range.
  - apply encode_basestring_range.
  - destruct l as [| x xs]; [repeat constructor; unfold ascii_char; lia |].
    rewrite iterencode_arr. inversion IH as [| ? ? Hx Hxs]; subst.
    apply List.Forall_cons; [unfold ascii_char; lia |].
    repeat (apply Forall_app; split);
      try apply newline_indent_range; try apply Hx.
    + clear Hx IH. induction Hxs as [| y ys Hy _ IHys]; [constructor |].
      cbn [items_tail]. repeat (apply Forall_app; split);
        try apply newline_indent_range; try assumption. apply Hy.
    + repeat constructor; unfold ascii_char; lia.
  - destruct m as [| [k v] kvs]; [repeat constructor; unfold ascii_char; lia |].
    rewrite iterencode_obj. inversion IH as [| ? ? Hx Hxs]; subst.
    apply List.Forall_cons; [unfold ascii_char; lia |].
    repeat (apply Forall_app; split);
      try apply newline_indent_range; try apply encode_basestring_range;
      try assumption; try apply Hx.
    + clear Hx IH. induction Hxs as [| [k' v'] l' Hy _ IHl]; [constructor |].
      cbn [members_tail]. repeat (apply Forall_app; split);
        try apply newline_indent_range; try apply encode_basestring_range;
        try assumption. apply Hy.
    + repeat constructor; unfold ascii_char; lia.
Qed.

Lemma encode_ascii_range (t : pystr) :
  Forall ascii_char t ->
  exists b, encode_ascii t = Some b /\ ascii_text b = t
            /\ is_plain_ascii b = true.
Proof.
  induction 1 as [| c t Hc _ (b & E & Ht & Hp)].
  - exists []. repeat split.
  - unfold ascii_char in Hc. cbn [encode_ascii].
    rewrite (proj2 (N.ltb_lt c 128)) by lia.
    destruct (Byte.of_N c) as [x |] eqn:Hx.
    + apply Byte.to_of_N in Hx. exists (x :: b). rewrite E.
      split; [reflexivity |]. split.
      * cbn [ascii_text map]. unfold ascii_text in Ht. rewrite Hx, Ht.
        reflexivity.
      * cbn [is_plain_ascii forallb]. rewrite Hx.
        rewrite (proj2 (N.ltb_lt 0 c)), (proj2 (N.ltb_lt c 128)) by lia.
        exact Hp.
    + apply Byte.of_N_None_iff in Hx. lia.
Qed.

Lemma dumps_range (j : json) :
  Forall ascii_char (dumps (default_fmt (Some 4%nat)) j).
Proof.
  unfold dumps.
  apply iterencode_range; repeat constructor; unfold ascii_char; lia.
Qed.

Lemma serialize_json_range (x : value) :
  Forall ascii_char (_serialize_from_etdump_to_json x).
Proof.
  unfold _serialize_from_etdump_to_json, dumps.
  apply iterencode_range; repeat constructor; unfold ascii_char; lia.
Qed.

Lemma str_encode_ascii_json (x : value) :
  exists b,
    str_encode_ascii (_serialize_from_etdump_to_json x) = Ok b
    /\ ascii_text b = _serialize_from_etdump_to_json x
    /\ is_plain_ascii b = true.
Proof.
  destruct (encode_ascii_range _ (serialize_json_range x)) as (b & E & H).
  exists b. unfold str_encode_ascii. rewrite E. split; [reflexivity | exact H].
Qed.

(** *** [json.loads] on what [json.dumps] wrote *)

Lemma json_loads_str_dumps (env : Env) (f : fmt) (j : json) :
  fmt_ok f = true -> json_ok j = true ->
  json_loads env (Str (dumps f j)) = Ok j.
Proof.
  intros Hf Hok. unfold json_loads.
  pose proof (loads_dumps f j Hf Hok) as Hl.
  unfold dumps in *.
  destruct (iterencode_head f 0 j) as (c & t & E & Hc).
  rewrite E in Hl |- *.
  assert ((c =? 0xfeff) = false) as ->.
  { apply N.eqb_neq. intros ->. discriminate Hc. }
  rewrite Hl. reflexivity.
Qed.


Lemma decode_V_eq (env : Env) (V : variant) (s : str_or_bytes) :
  decode_V env V s =
  match json_loads env s with
  | Ok j => _json_to_dataclass j (schema_of env V)
  | Err e => Err e
  end.
Proof. destruct V; reflexivity. Qed.

Lemma decode_V_dumps (env : Env) (V : variant) (f : fmt) (x : value) :
  fmt_ok f = true ->
  wf_ty (schema_of env V) = true -> valid (schema_of env V) x = true ->
  decode_V env V (Str (dumps f (encode_tree x))) = Ok x.
Proof.
  intros Hf Hwf Hval.
  destruct (decode_encode_tree (schema_of env V) Hwf x Hval) as [Hok Hdec].
  rewrite decode_V_eq, json_loads_str_dumps by assumption. exact Hdec.
Qed.

End TextFacts.

Import TextFacts.

(** ** Required paths *)

Module PathFacts.







Section Fields.

Variable dec : json -> ty -> result value.






End Fields.



End PathFacts.

Import PathFacts.

(** ** File names *)

Local Open Scope string_scope.

Module PathNames.

Lemma string_cons_app (c : ascii) (a b : string) :
  String c a ++ b = String c (a ++ b).
Proof. reflexivity. Qed.

Lemma string_app_assoc (a b c : string) : (a ++ b) ++ c = a ++ b ++ c.
Proof.
  induction a as [| x a IH]; [reflexivity |].
  rewrite !string_cons_app, IH. reflexivity.
Qed.

(** The directory as [os.path.join] prefixes it to a relative name. *)
Lemma path_join_relative (d n : string) :
  relative n = true -> path_join d n = path_join d EmptyString ++ n.
Proof.
  destruct n as [| c r]; [discriminate |]. cbn [relative]. intros Hc.
  apply negb_true_iff in Hc. unfold path_join. rewrite Hc.
  destruct (String.eqb d EmptyString || ends_with_slash d); [reflexivity |].
  rewrite string_app_assoc. reflexivity.
Qed.

Lemma path_join_inj (d a b : string) :
  relative a = true -> relative b = true ->
  path_join d a = path_join d b -> a = b.
Proof.
  intros Ha Hb.
  rewrite (path_join_relative d a Ha), (path_join_relative d b Hb).
  apply String.app_inj.
Qed.

Lemma under_dir_join (d n : string) :
  relative n = true -> under_dir d (path_join d n) = true.
Proof.
  intros Hn. unfold under_dir. rewrite (path_join_relative d n Hn).
  induction (path_join d EmptyString) as [| c p IH]; [reflexivity |].
  rewrite string_cons_app. cbn [starts_with]. rewrite IH, andb_true_r.
  apply Ascii.eqb_refl.
Qed.

Lemma ends_with_slash_app (d : string) : ends_with_slash (d ++ "/") = true.
Proof.
  induction d as [| c d IH]; [reflexivity |].
  rewrite string_cons_app. cbn [ends_with_slash].
  destruct (d ++ "/") eqn:E; [| exact IH].
  destruct d; discriminate E.
Qed.

Lemma dir_prefix_shape (d : string) :
  path_join d EmptyString = EmptyString \/ ends_with_slash (path_join d EmptyString) = true.
Proof.
  unfold path_join. destruct d as [| c d]; [left; reflexivity |].
  right. cbn [String.eqb orb].
  destruct (ends_with_slash (String c d)) eqn:E; [exact E |].
  apply ends_with_slash_app.
Qed.

Lemma has_slash_app (p n : string) :
  has_slash (p ++ n) = has_slash p || has_slash n.
Proof.
  induction p as [| c p IH]; [reflexivity |].
  rewrite string_cons_app. cbn [has_slash]. rewrite IH, orb_assoc.
  reflexivity.
Qed.

Lemma ends_with_slash_has (p : string) :
  ends_with_slash p = true -> has_slash p = true.
Proof.
  induction p as [| c p IH]; [discriminate |].
  cbn [ends_with_slash has_slash]. destruct p as [| c' p'].
  - intros ->. reflexivity.
  - intros H. rewrite (IH H). apply orb_true_r.
Qed.

Lemma basename_none (n : string) : has_slash n = false -> basename n = n.
Proof.
  destruct n as [| c r]; [reflexivity |]. cbn [has_slash basename].
  intros H. apply orb_false_iff in H as [Hc Hr]. rewrite Hr, Hc. reflexivity.
Qed.

Lemma basename_app (p n : string) :
  p = EmptyString \/ ends_with_slash p = true -> has_slash n = false ->
  basename (p ++ n) = n.
Proof.
  intros Hp Hn. induction p as [| c p IH].
  - apply basename_none. exact Hn.
  - destruct Hp as [Hp | Hp]; [discriminate |].
    rewrite string_cons_app. cbn [basename].
    rewrite has_slash_app, Hn, orb_false_r.
    destruct p as [| c' p'].
    + cbn [ends_with_slash] in Hp. cbn [has_slash]. rewrite Hp.
      reflexivity.
    + assert (Hp' : ends_with_slash (String c' p') = true) by exact Hp.
      rewrite (ends_with_slash_has _ Hp'). apply IH. right. exact Hp'.
Qed.

Lemma basename_join (d n : string) :
  relative n = true -> has_slash n = false -> basename (path_join d n) = n.
Proof.
  intros Hr Hn. rewrite (path_join_relative d n Hr).
  apply basename_app; [apply dir_prefix_shape | exact Hn].
Qed.

Lemma stem_join (d n : string) :
  relative n = true -> has_slash n = false ->
  stem (path_join d n) = strip_ext n.
Proof. intros Hr Hn. unfold stem. rewrite basename_join by assumption. reflexivity. Qed.

End PathNames.

Import PathNames.

(** ** Runs of the conversions *)

Module IOFacts.

(** *** The temporary directory *)

Lemma rmtree_gone (d : string) (s : filesystem) : workspace_gone d (rmtree d s).
Proof.
  unfold workspace_gone, rmtree. cbn [files dirs]. split; [| split].
  - rewrite elem_of_filter. tauto.
  - intros file Hu. apply map_lookup_filter_None. right.
    intros data _. cbn [fst]. rewrite Hu. discriminate.
  - intros dir Hu. rewrite elem_of_filter. rewrite Hu.
    intros [[_ H] _]. discriminate H.
Qed.

Lemma TemporaryDirectory_gone {A : Type} (env : Env) (body : string -> io A)
  (s : filesystem) :
  workspace_gone (tmpname env s) (snd (TemporaryDirectory env body s)).
Proof.
  unfold TemporaryDirectory. destruct (body _ _) as [r s2]. cbn [snd].
  apply rmtree_gone.
Qed.

Lemma convert_to_V_eq (env : Env) (V : variant) (text : pystr) :
  convert_to_V env V text
  = TemporaryDirectory env (convert_to_body env (schema_name V) text).
Proof. destruct V; reflexivity. Qed.

Lemma convert_from_V_eq (env : Env) (V : variant) (blob : bytes) :
  convert_from_V env V blob
  = TemporaryDirectory env (convert_from_body env (schema_name V) blob).
Proof. destruct V; reflexivity. Qed.

Lemma serialize_V_eq (env : Env) (V : variant) (x : value) :
  serialize_V env V x = convert_to_V env V (_serialize_from_etdump_to_json x).
Proof. destruct V; reflexivity. Qed.

Lemma deserialize_V_eq (env : Env) (V : variant) (blob : bytes) :
  deserialize_V env V blob
  = bind (convert_from_V env V blob)
      (fun text => lift (decode_V env V (Bytes text))).
Proof. destruct V; reflexivity. Qed.

Lemma bind_lift_snd {A B : Type} (m : io A) (k : A -> result B)
  (s : filesystem) :
  snd (bind m (fun a => lift (k a)) s) = snd (m s).
Proof. unfold bind, lift. destruct (m s) as [[a | e] s']; reflexivity. Qed.

Lemma TemporaryDirectory_run {A : Type} (env : Env) (body : string -> io A)
  (s : filesystem) :
  TemporaryDirectory env body s =
  (fst (body (tmpname env s)
          (FS (files s) ({[ tmpname env s ]} ∪ dirs s) (opened s))),
   rmtree (tmpname env s)
     (snd (body (tmpname env s)
             (FS (files s) ({[ tmpname env s ]} ∪ dirs s) (opened s))))).
Proof.
  unfold TemporaryDirectory. destruct (body _ _) as [r s2]. reflexivity.
Qed.

(** *** Running the bodies *)

Ltac run_io :=
  cbn [fst snd files dirs opened];
  repeat (match goal with
  | |- context [if writable ?e ?p then _ else _] =>
      destruct (writable e p) eqn:?
  | |- context [match resources ?e !! ?n with _ => _ end] =>
      destruct (resources e !! n) eqn:?
  | |- context [match str_encode_ascii ?t with _ => _ end] =>
      destruct (str_encode_ascii t) eqn:?
  | |- context [match flatc_to_binary ?e ?a ?b with _ => _ end] =>
      destruct (flatc_to_binary e a b) eqn:?
  | |- context [match flatc_to_json ?e ?a ?b with _ => _ end] =>
      destruct (flatc_to_json e a b) eqn:?
  | |- context [match @lookup string bytes _ _ ?p ?m with _ => _ end] =>
      destruct (@lookup string bytes _ _ p m) eqn:?
  end; cbn [fst snd files dirs opened]).

Ltac unfold_io :=
  unfold convert_to_body, convert_from_body, _write_schema, bind, open_wb,
    resource_string, file_write, lift, flatc_compile, flatc_decompile,
    open_rb_read, log, set_file.

Lemma convert_to_body_log (env : Env) (name : string) (text : pystr)
  (d : string) (s : filesystem) :
  exists evs,
    opened (snd (convert_to_body env name text d s))
    = (opened s ++ evs)%list
    /\ evs `prefix_of` staged_to d name
    /\ (forall blob, fst (convert_to_body env name text d s) = Ok blob ->
        evs = staged_to d name).
Proof.
  unfold_io. run_io.
  all: eexists; split; [rewrite <- ?app_assoc; cbn [app]; reflexivity |].
  all: split; [eexists; cbn [app]; reflexivity | try discriminate].
  all: reflexivity.
Qed.

Lemma convert_from_body_log (env : Env) (name : string) (blob : bytes)
  (d : string) (s : filesystem) :
  exists evs,
    opened (snd (convert_from_body env name blob d s))
    = (opened s ++ evs)%list
    /\ evs `prefix_of` staged_from d name
    /\ (forall text, fst (convert_from_body env name blob d s) = Ok text ->
        evs = staged_from d name).
Proof.
  unfold_io. run_io.
  all: eexists; split; [rewrite <- ?app_assoc; cbn [app]; reflexivity |].
  all: split; [eexists; cbn [app]; reflexivity | try discriminate].
  all: reflexivity.
Qed.

(** Two different relative names give different files of the
    directory. *)
Ltac other_file :=
  let H := fresh in
  intros H; apply path_join_inj in H;
  [vm_compute in H; discriminate H | reflexivity | reflexivity].

Lemma schema_files_differ (d : string) (V : variant) :
  path_join d (schema_name V ++ ".fbs")
    <> path_join d (SCALAR_TYPE_SCHEMA_NAME ++ ".fbs")
  /\ path_join d (schema_name V ++ ".fbs")
       <> path_join d (schema_name V ++ ".json")
  /\ path_join d (schema_name V ++ ".fbs") <> path_join d "schema.bin"
  /\ path_join d (SCALAR_TYPE_SCHEMA_NAME ++ ".fbs")
       <> path_join d (schema_name V ++ ".json")
  /\ path_join d (SCALAR_TYPE_SCHEMA_NAME ++ ".fbs")
       <> path_join d "schema.bin".
Proof. destruct V; repeat split; other_file. Qed.

Lemma stem_schema (d : string) (V : variant) :
  stem (path_join d (schema_name V ++ ".fbs")) = schema_name V.
Proof. destruct V; rewrite stem_join by reflexivity; reflexivity. Qed.

Lemma stem_payload (d : string) : stem (path_join d "schema.bin") = "schema".
Proof. rewrite stem_join by reflexivity. reflexivity. Qed.

(** The files a conversion has staged when the compiler is called. *)
Lemma staged_lookup (d : string) (V : variant) (third : string)
  (m : gmap string bytes) (sch scal x y : bytes) :
  path_join d (schema_name V ++ ".fbs") <> third ->
  path_join d (SCALAR_TYPE_SCHEMA_NAME ++ ".fbs") <> third ->
  let staged :=
    <[third := y]>
      (<[third := x]>
         (<[path_join d (SCALAR_TYPE_SCHEMA_NAME ++ ".fbs") := scal]>
            (<[path_join d (SCALAR_TYPE_SCHEMA_NAME ++ ".fbs") := []]>
               (<[path_join d (schema_name V ++ ".fbs") := sch]>
                  (<[path_join d (schema_name V ++ ".fbs") := []]> m))))) in
  staged !! path_join d (schema_name V ++ ".fbs") = Some sch
  /\ staged !! third = Some y.
Proof.
  intros H1 H2 staged. unfold staged.
  destruct (schema_files_differ d V) as (H12 & _).
  split.
  - rewrite !lookup_insert_ne by (intros E; symmetry in E; contradiction).
    apply lookup_insert_eq.
  - apply lookup_insert_eq.
Qed.






(** What a successful conversion to binary went through. *)
Lemma convert_to_body_inv (env : Env) (V : variant) (text : pystr)
  (d : string) (s : filesystem) (blob : bytes) :
  fst (convert_to_body env (schema_name V) text d s) = Ok blob ->
  exists sch payload,
    resources env !! (schema_name V ++ ".fbs") = Some sch
    /\ str_encode_ascii text = Ok payload
    /\ flatc_to_binary env sch payload = Some blob.
Proof.
  destruct (schema_files_differ d V) as (H12 & H13 & _ & H23 & _).
  unfold_io. cbn [fst snd files dirs opened].
  destruct (writable env (path_join d (schema_name V ++ ".fbs")));
    [| discriminate].
  destruct (resources env !! (schema_name V ++ ".fbs")) as [sch |];
    [| discriminate].
  cbn [fst snd files dirs opened].
  destruct (writable env (path_join d (SCALAR_TYPE_SCHEMA_NAME ++ ".fbs")));
    [| discriminate].
  destruct (resources env !! (SCALAR_TYPE_SCHEMA_NAME ++ ".fbs")) as [scal |];
    [| discriminate].
  cbn [fst snd files dirs opened].
  destruct (writable env (path_join d (schema_name V ++ ".json")));
    [| discriminate].
  destruct (str_encode_ascii text) as [payload |]; [| discriminate].
  cbn [fst snd files dirs opened].
  destruct (staged_lookup d V (path_join d (schema_name V ++ ".json"))
              (files s) sch scal [] payload H13 H23) as [L1 L2].
  cbv zeta in L1, L2. rewrite L1, L2.
  destruct (flatc_to_binary env sch payload) as [b |] eqn:Hbin;
    [| discriminate].
  cbn [fst snd files dirs opened].
  rewrite stem_schema, lookup_insert_eq. intros [= <-].
  exists sch, payload. repeat split. exact Hbin.
Qed.

(** The payload of the encoder never makes the staging fail with
    [UnicodeEncodeError]. *)
Lemma convert_to_body_no_unicode_error (env : Env) (name : string)
  (x : value) (d : string) (s : filesystem) :
  fst (convert_to_body env name (_serialize_from_etdump_to_json x) d s)
  <> Err UnicodeEncodeError.
Proof.
  destruct (str_encode_ascii_json x) as (b & Hb & _).
  unfold_io. rewrite Hb. run_io. all: discriminate.
Qed.

(** *** The schema resources *)




End IOFacts.

Import IOFacts.

(** ** The properties of the serializer *)

Section Roundtrip.

Variable env : Env.
Variable V : variant.
Hypothesis schema_wf : wf_ty (schema_of env V) = true.


(** C8. Pretty-printing is cosmetic: the JSON of a valid record decodes
    to the same record whether it was written with indentation or in any
    other format that differs by insignificant whitespace only, the
    format without any whitespace included. *)
Theorem pretty_printing_is_cosmetic (x : value) (f : fmt) :
  valid (schema_of env V) x = true ->
  fmt_ok f = true ->
  decode_V env V (Str (dumps f (encode_tree x)))
  = decode_V env V (Str (_serialize_from_etdump_to_json x))
  /\ decode_V env V (Str (dumps compact_fmt (encode_tree x))) = Ok x.
Proof.
  intros Hval Hf. unfold _serialize_from_etdump_to_json.
  rewrite !decode_V_dumps by auto. split; reflexivity.
Qed.



End Roundtrip.


(** C9. The JSON text of the encoder is ASCII, whatever the tree that
    [json.dumps] is given, so encoding it to ASCII for the payload file
    succeeds, and neither conversion path raises [UnicodeEncodeError]. *)
Theorem json_text_is_ascii (x : value) :
  (forall j, Forall (fun c => (c < 128)%N) (dumps (default_fmt (Some 4%nat)) j))
  /\ Forall (fun c => (c < 128)%N) (_serialize_from_etdump_to_json x)
  /\ (exists b,
        str_encode_ascii (_serialize_from_etdump_to_json x) = Ok b
        /\ ascii_text b = _serialize_from_etdump_to_json x)
  /\ forall env V s, fst (serialize_V env V x s) <> Err UnicodeEncodeError.
Proof.
  split; [| split; [| split]].
  - intros j. eapply Forall_impl; [apply dumps_range |].
    intros c [_ Hc]. exact Hc.
  - eapply Forall_impl; [apply serialize_json_range |].
    intros c [_ Hc]. exact Hc.
  - destruct (str_encode_ascii_json x) as (b & Hb & Ht & _).
    exists b. split; assumption.
  - intros env V s.
    rewrite serialize_V_eq, convert_to_V_eq, TemporaryDirectory_run.
    cbn [fst]. apply convert_to_body_no_unicode_error.
Qed.

(** C10. Both variants encode with the same function: when serializing
    one record under the legacy and under the current schema succeeds,
    the compiler was given the same payload, the ASCII bytes of
    [_serialize_from_etdump_to_json], with the schema of each. *)
Theorem shared_encoder (env : Env) (x : value) (s sl sc : filesystem)
  (blob_legacy blob_current : bytes) :
  serialize_to_etdump env x s = (Ok blob_legacy, sl) ->
  serialize_to_etdump_flatcc env x s = (Ok blob_current, sc) ->
  exists payload schema_legacy schema_current,
    str_encode_ascii (_serialize_from_etdump_to_json x) = Ok payload
    /\ resources env !! (ETDUMP_SCHEMA_NAME ++ ".fbs") = Some schema_legacy
    /\ resources env !! (ETDUMP_FLATCC_SCHEMA_NAME ++ ".fbs")
       = Some schema_current
    /\ flatc_to_binary env schema_legacy payload = Some blob_legacy
    /\ flatc_to_binary env schema_current payload = Some blob_current.
Proof.
  intros Hl Hc.
  apply (f_equal fst) in Hl, Hc. cbn [fst] in Hl, Hc.
  change (serialize_to_etdump env x) with (serialize_V env Legacy x) in Hl.
  change (serialize_to_etdump_flatcc env x)
    with (serialize_V env Current x) in Hc.
  rewrite serialize_V_eq, convert_to_V_eq, TemporaryDirectory_run in Hl, Hc.
  cbn [fst] in Hl, Hc.
  apply convert_to_body_inv in Hl as (schl & pl & Rl & El & Bl).
  apply convert_to_body_inv in Hc as (schc & pc & Rc & Ec & Bc).
  rewrite El in Ec. injection Ec as <-.
  exists pl, schl, schc. repeat split; assumption.
Qed.

(** C3. Whatever a serialization or a deserialization returns or
    raises, the temporary directory it created is gone afterwards, and
    so is everything inside it. *)
Theorem workspace_cleanup (env : Env) (V : variant) (s : filesystem) :
  (forall x,
      workspace_gone (tmpname env s) (snd (serialize_V env V x s)))
  /\ (forall blob,
        workspace_gone (tmpname env s) (snd (deserialize_V env V blob s))).
Proof.
  split.
  - intros x. rewrite serialize_V_eq, convert_to_V_eq.
    apply TemporaryDirectory_gone.
  - intros blob. rewrite deserialize_V_eq, bind_lift_snd, convert_from_V_eq.
    apply TemporaryDirectory_gone.
Qed.

(** C4, as amended. The schema texts are staged as [<schema-name>.fbs];
    a serialization writes the JSON payload to [<schema-name>.json] and
    reads the binary from [<schema-name>.etdp]; a deserialization writes
    the binary payload to [schema.bin] and reads the JSON from
    [schema.json], whatever the schema. The files a call opens are a
    prefix of that list, and the whole list when it succeeds. *)
Theorem staging_names (env : Env) (V : variant) (s : filesystem) :
  (forall x,
      exists evs,
        opened (snd (serialize_V env V x s)) = (opened s ++ evs)%list
        /\ match fst (serialize_V env V x s) with
           | Ok _ => evs = staged_to (tmpname env s) (schema_name V)
           | Err _ => evs `prefix_of` staged_to (tmpname env s) (schema_name V)
           end)
  /\ (forall blob,
        exists evs,
          opened (snd (deserialize_V env V blob s)) = (opened s ++ evs)%list
          /\ match fst (convert_from_V env V blob s) with
             | Ok _ => evs = staged_from (tmpname env s) (schema_name V)
             | Err _ =>
                 evs `prefix_of` staged_from (tmpname env s) (schema_name V)
             end).
Proof.
  split.
  - intros x. rewrite serialize_V_eq, convert_to_V_eq, TemporaryDirectory_run.
    cbn [fst snd rmtree opened].
    destruct (convert_to_body_log env (schema_name V)
                (_serialize_from_etdump_to_json x) (tmpname env s)
                (FS (files s) ({[tmpname env s]} ∪ dirs s) (opened s)))
      as (evs & Hlog & Hpre & Hfull).
    exists evs. split; [exact Hlog |].
    destruct (fst (convert_to_body _ _ _ _ _)) as [b |];
      [exact (Hfull b eq_refl) | exact Hpre].
  - intros blob.
    rewrite deserialize_V_eq, bind_lift_snd, convert_from_V_eq,
      TemporaryDirectory_run.
    cbn [fst snd rmtree opened].
    destruct (convert_from_body_log env (schema_name V) blob (tmpname env s)
                (FS (files s) ({[tmpname env s]} ∪ dirs s) (opened s)))
      as (evs & Hlog & Hpre & Hfull).
    exists evs. split; [exact Hlog |].
    destruct (fst (convert_from_body _ _ _ _ _)) as [b |];
      [exact (Hfull b eq_refl) | exact Hpre].
Qed.


(** ** The properties at the concrete setting *)

Lemma example_all_writable : all_writable Example.env.
Proof. intros file. reflexivity. Qed.

Lemma example_has_schemas (V : variant) : has_schemas Example.env V.
Proof. destruct V; split; vm_compute; eexists; reflexivity. Qed.

Lemma example_decodes_ascii : decodes_ascii Example.env.
Proof.
  intros b Hb. cbn [bytes_decode Example.env]. unfold Example.ascii_decode.
  rewrite Hb. reflexivity.
Qed.




Lemma pretty_printing_is_cosmetic_witness :
  wf_ty (schema_of Example.env Current) = true
  /\ valid (schema_of Example.env Current) Example.record = true
  /\ fmt_ok (default_fmt None) = true
  /\ decode_V Example.env Current
       (Str (dumps (default_fmt None) (encode_tree Example.record)))
     = decode_V Example.env Current
         (Str (_serialize_from_etdump_to_json Example.record))
  /\ decode_V Example.env Current
       (Str (dumps compact_fmt (encode_tree Example.record)))
     = Ok Example.record.
Proof.
  split; [vm_compute; reflexivity |].
  split; [vm_compute; reflexivity |].
  split; [vm_compute; reflexivity |].
  apply pretty_printing_is_cosmetic; vm_compute; reflexivity.
Defined.




Lemma shared_encoder_witness :
  serialize_to_etdump Example.env Example.record Example.empty_fs
  = (Ok Example.payload,
     snd (serialize_to_etdump Example.env Example.record Example.empty_fs))
  /\ serialize_to_etdump_flatcc Example.env Example.record Example.empty_fs
     = (Ok Example.payload,
        snd (serialize_to_etdump_flatcc Example.env Example.record
               Example.empty_fs))
  /\ exists payload schema_legacy schema_current,
       str_encode_ascii (_serialize_from_etdump_to_json Example.record)
       = Ok payload
       /\ resources Example.env !! (ETDUMP_SCHEMA_NAME ++ ".fbs")
          = Some schema_legacy
       /\ resources Example.env !! (ETDUMP_FLATCC_SCHEMA_NAME ++ ".fbs")
          = Some schema_current
       /\ flatc_to_binary Example.env schema_legacy payload
          = Some Example.payload
       /\ flatc_to_binary Example.env schema_current payload
          = Some Example.payload.
Proof.
  assert (Hl : serialize_to_etdump Example.env Example.record Example.empty_fs
               = (Ok Example.payload,
                  snd (serialize_to_etdump Example.env Example.record
                         Example.empty_fs))) by (vm_compute; reflexivity).
  assert (Hc : serialize_to_etdump_flatcc Example.env Example.record
                 Example.empty_fs
               = (Ok Example.payload,
                  snd (serialize_to_etdump_flatcc Example.env Example.record
                         Example.empty_fs))) by (vm_compute; reflexivity).
  split; [exact Hl |]. split; [exact Hc |].
  exact (shared_encoder Example.env Example.record Example.empty_fs _ _
           Example.payload Example.payload Hl Hc).
Defined.


(** C4, as the specification words it, fails: a deserialization stages
    the binary payload as [schema.bin], which is not named after the
    schema. *)
Lemma naming_convention_counterexample :
  ~ (forall file m,
        In (Opened file m)
          (opened (snd (deserialize_V Example.env Legacy Example.payload
                          Example.empty_fs))) ->
        follows_convention Example.workspace (schema_name Legacy) file = true).
Proof.
  intros H.
  specialize (H (path_join Example.workspace "schema.bin") WB).
  assert (Hin : In (Opened (path_join Example.workspace "schema.bin") WB)
                  (opened (snd (deserialize_V Example.env Legacy
                                  Example.payload Example.empty_fs)))).
  { vm_compute. right. right. left. reflexivity. }
  specialize (H Hin). vm_compute in H. discriminate H.
Qed.

(** *** Runs *)

(** The example of the specification: the record encodes to the
    document with the members in the order of the fields, and the
    document with a discriminator the schema does not declare is
    refused with the path of the union. *)
Example encode_count_status :
  dumps compact_fmt
    (encode_tree
       (VRecord [ (u "count", VScalar (SInt false 8 7));
                  (u "status", VUnion (u "ok") (VScalar (SBool true))) ]))
  = uq "{'count':7,'status':{'variant':'ok','value':true}}".
Proof. vm_compute. reflexivity. Qed.

Example decode_bogus_variant :
  _json_to_dataclass
    (JObj [ (u "count", JInt 7);
            (u "status",
             JObj [(u "variant", JStr (u "bogus")); (u "value", JBool true)]) ])
    Example.schema
  = Err (UnknownVariantError [Key (u "status")]).
Proof. vm_compute. reflexivity. Qed.

(** The members are written in the order of the record, not sorted. *)
Example order_is_kept :
  dumps compact_fmt
    (encode_tree (VRecord [ (u "b", VScalar (SBool true));
                            (u "a", VScalar (SBool false)) ]))
  = uq "{'b':true,'a':false}".
Proof. vm_compute. reflexivity. Qed.

(** The indented text that [json.dumps(..., indent=4)] writes. *)
Example indented_text :
  _serialize_from_etdump_to_json
    (VRecord [ (u "count", VScalar (SInt false 8 7));
               (u "notes", VSeq [VScalar (SString [233%N])]) ])
  = [123; 10; 32; 32; 32; 32; 34; 99; 111; 117; 110; 116; 34; 58; 32; 55;
     44; 10; 32; 32; 32; 32; 34; 110; 111; 116; 101; 115; 34; 58; 32; 91;
     10; 32; 32; 32; 32; 32; 32; 32; 32; 34; 92; 117; 48; 48; 101; 57; 34;
     10; 32; 32; 32; 32; 93; 10; 125]%N.
Proof. vm_compute. reflexivity. Qed.

(** A high surrogate followed by a low one does not survive the JSON
    text: the two escapes are read back as one character. This is why
    the strings of a valid record are Unicode text. *)
Example surrogates_are_joined :
  loads_str (dumps compact_fmt (JStr [0xd83d; 0xde00]%N))
  = Some (JStr [0x1f600]%N).
Proof. vm_compute. reflexivity. Qed.

(** A serialization on a read-only file system raises at the first
    write, one with a failing compiler raises after the staging; both
    leave nothing behind. *)
Example cleanup_after_write_failure :
  serialize_to_etdump Example.env_readonly Example.record Example.empty_fs
  = (Err (WorkspaceIOError "/tmp/tmpab12cd/etdump_schema.fbs"),
     FS ∅ ∅ [Opened "/tmp/tmpab12cd/etdump_schema.fbs" WB]).
Proof. vm_compute. reflexivity. Qed.

Example cleanup_after_compiler_failure :
  fst (serialize_to_etdump Example.env_broken Example.record Example.empty_fs)
  = Err SchemaCompilerError
  /\ files (snd (serialize_to_etdump Example.env_broken Example.record
                   Example.empty_fs)) = ∅
  /\ dirs (snd (serialize_to_etdump Example.env_broken Example.record
                  Example.empty_fs)) = ∅.
Proof. vm_compute. repeat split. Qed.

(** A schema name the package does not hold. *)
Example unknown_schema_name :
  fst (_write_schema Example.env Example.workspace "etdump_schema_v2"
         Example.empty_fs)
  = Err (ResourceNotFoundError "etdump_schema_v2.fbs").
Proof. vm_compute. reflexivity. Qed.

(** The files a successful round trip opens. *)
Example files_of_a_round_trip :
  opened (snd (deserialize_from_etdump Example.env Example.payload
                 (snd (serialize_to_etdump Example.env Example.record
                         Example.empty_fs))))
  = [ Opened "/tmp/tmpab12cd/etdump_schema.fbs" WB;
      Opened "/tmp/tmpab12cd/scalar_type.fbs" WB;
      Opened "/tmp/tmpab12cd/etdump_schema.json" WB;
      Opened "/tmp/tmpab12cd/etdump_schema.etdp" RB;
      Opened "/tmp/tmpab12cd/etdump_schema.fbs" WB;
      Opened "/tmp/tmpab12cd/scalar_type.fbs" WB;
      Opened "/tmp/tmpab12cd/schema.bin" WB;
      Opened "/tmp/tmpab12cd/schema.json" RB ].
Proof. vm_compute. reflexivity. Qed.

(** * Further properties *)

Module OutcomeFacts.

(** *** The result of a conversion *)

Lemma convert_to_body_outcome (env : Env) (V : variant) (text : pystr)
  (d : string) (s : filesystem) :
  fst (convert_to_body env (schema_name V) text d s)
  = convert_to_outcome env V text d.
Proof.
  destruct (schema_files_differ d V) as (H12 & H13 & _ & H23 & _).
  unfold convert_to_outcome. cbv zeta. unfold_io.
  cbn [fst snd files dirs opened].
  destruct (writable env (path_join d (schema_name V ++ ".fbs")));
    [| reflexivity].
  destruct (resources env !! (schema_name V ++ ".fbs")) as [sch |];
    [| reflexivity].
  cbn [fst snd files dirs opened negb].
  destruct (writable env (path_join d (SCALAR_TYPE_SCHEMA_NAME ++ ".fbs")));
    [| reflexivity].
  destruct (resources env !! (SCALAR_TYPE_SCHEMA_NAME ++ ".fbs")) as [scal |];
    [| reflexivity].
  cbn [fst snd files dirs opened negb].
  destruct (writable env (path_join d (schema_name V ++ ".json")));
    [| reflexivity].
  destruct (str_encode_ascii text) as [payload |]; [| reflexivity].
  cbn [fst snd files dirs opened negb].
  destruct (staged_lookup d V (path_join d (schema_name V ++ ".json"))
              (files s) sch scal [] payload H13 H23) as [L1 L2].
  cbv zeta in L1, L2. rewrite L1, L2.
  destruct (flatc_to_binary env sch payload) as [b |]; [| reflexivity].
  cbn [fst snd files dirs opened].
  rewrite stem_schema, lookup_insert_eq. reflexivity.
Qed.

Lemma convert_from_body_outcome (env : Env) (V : variant) (blob : bytes)
  (d : string) (s : filesystem) :
  fst (convert_from_body env (schema_name V) blob d s)
  = convert_from_outcome env V blob d.
Proof.
  destruct (schema_files_differ d V) as (H12 & _ & H13 & _ & H23).
  unfold convert_from_outcome. cbv zeta. unfold_io.
  cbn [fst snd files dirs opened].
  destruct (writable env (path_join d (schema_name V ++ ".fbs")));
    [| reflexivity].
  destruct (resources env !! (schema_name V ++ ".fbs")) as [sch |];
    [| reflexivity].
  cbn [fst snd files dirs opened negb].
  destruct (writable env (path_join d (SCALAR_TYPE_SCHEMA_NAME ++ ".fbs")));
    [| reflexivity].
  destruct (resources env !! (SCALAR_TYPE_SCHEMA_NAME ++ ".fbs")) as [scal |];
    [| reflexivity].
  cbn [fst snd files dirs opened negb].
  destruct (writable env (path_join d "schema.bin")); [| reflexivity].
  cbn [fst snd files dirs opened negb].
  destruct (staged_lookup d V (path_join d "schema.bin")
              (files s) sch scal [] blob H13 H23) as [L1 L2].
  cbv zeta in L1, L2. rewrite L1, L2.
  destruct (flatc_to_json env sch blob) as [t |]; [| reflexivity].
  cbn [fst snd files dirs opened].
  rewrite stem_payload, lookup_insert_eq. reflexivity.
Qed.

Lemma convert_to_V_outcome (env : Env) (V : variant) (text : pystr)
  (s : filesystem) :
  fst (convert_to_V env V text s)
  = convert_to_outcome env V text (tmpname env s).
Proof.
  rewrite convert_to_V_eq, TemporaryDirectory_run. cbn [fst].
  apply convert_to_body_outcome.
Qed.

Lemma convert_from_V_outcome (env : Env) (V : variant) (blob : bytes)
  (s : filesystem) :
  fst (convert_from_V env V blob s)
  = convert_from_outcome env V blob (tmpname env s).
Proof.
  rewrite convert_from_V_eq, TemporaryDirectory_run. cbn [fst].
  apply convert_from_body_outcome.
Qed.

Lemma deserialize_V_fst (env : Env) (V : variant) (blob : bytes)
  (s : filesystem) :
  fst (deserialize_V env V blob s)
  = match fst (convert_from_V env V blob s) with
    | Ok text => decode_V env V (Bytes text)
    | Err e => Err e
    end.
Proof.
  rewrite deserialize_V_eq. unfold bind, lift.
  destruct (convert_from_V env V blob s) as [[text | e] s']; reflexivity.
Qed.

(** *** What a conversion leaves alone *)

Lemma staged_under (d : string) (V : variant) :
  under_dir d (path_join d (schema_name V ++ ".fbs")) = true
  /\ under_dir d (path_join d (SCALAR_TYPE_SCHEMA_NAME ++ ".fbs")) = true
  /\ under_dir d (path_join d (schema_name V ++ ".json")) = true
  /\ under_dir d (path_join d (schema_name V ++ ".etdp")) = true
  /\ under_dir d (path_join d "schema.bin") = true
  /\ under_dir d (path_join d "schema.json") = true.
Proof. destruct V; repeat split; apply under_dir_join; reflexivity. Qed.

Lemma convert_to_body_frame (env : Env) (V : variant) (text : pystr)
  (d : string) (s : filesystem) (p : string) :
  under_dir d p = false ->
  files (snd (convert_to_body env (schema_name V) text d s)) !! p
  = files s !! p.
Proof.
  intros Hp. destruct (staged_under d V) as (U1 & U2 & U3 & U4 & _).
  assert (N1 : path_join d (schema_name V ++ ".fbs") <> p)
    by (intros E; rewrite E in U1; congruence).
  assert (N2 : path_join d (SCALAR_TYPE_SCHEMA_NAME ++ ".fbs") <> p)
    by (intros E; rewrite E in U2; congruence).
  assert (N3 : path_join d (schema_name V ++ ".json") <> p)
    by (intros E; rewrite E in U3; congruence).
  assert (N4 : path_join d (schema_name V ++ ".etdp") <> p)
    by (intros E; rewrite E in U4; congruence).
  unfold_io. rewrite stem_schema. run_io.
  all: rewrite ?lookup_insert_ne by assumption; reflexivity.
Qed.

Lemma convert_from_body_frame (env : Env) (V : variant) (blob : bytes)
  (d : string) (s : filesystem) (p : string) :
  under_dir d p = false ->
  files (snd (convert_from_body env (schema_name V) blob d s)) !! p
  = files s !! p.
Proof.
  intros Hp. destruct (staged_under d V) as (U1 & U2 & _ & _ & U5 & U6).
  assert (N1 : path_join d (schema_name V ++ ".fbs") <> p)
    by (intros E; rewrite E in U1; congruence).
  assert (N2 : path_join d (SCALAR_TYPE_SCHEMA_NAME ++ ".fbs") <> p)
    by (intros E; rewrite E in U2; congruence).
  assert (N5 : path_join d "schema.bin" <> p)
    by (intros E; rewrite E in U5; congruence).
  assert (N6 : path_join d "schema.json" <> p)
    by (intros E; rewrite E in U6; congruence).
  unfold_io. rewrite stem_payload.
  change ("schema" ++ ".json") with "schema.json". run_io.
  all: rewrite ?lookup_insert_ne by assumption; reflexivity.
Qed.

Lemma convert_to_body_dirs (env : Env) (name : string) (text : pystr)
  (d : string) (s : filesystem) :
  dirs (snd (convert_to_body env name text d s)) = dirs s.
Proof. unfold_io. run_io. all: reflexivity. Qed.

Lemma convert_from_body_dirs (env : Env) (name : string) (blob : bytes)
  (d : string) (s : filesystem) :
  dirs (snd (convert_from_body env name blob d s)) = dirs s.
Proof. unfold_io. run_io. all: reflexivity. Qed.

Lemma rmtree_frame (d : string) (s : filesystem) (p : string) :
  under_dir d p = false -> files (rmtree d s) !! p = files s !! p.
Proof.
  intros Hp. unfold rmtree. cbn [files].
  destruct (files s !! p) as [data |] eqn:E.
  - apply map_lookup_filter_Some. split; [exact E | exact Hp].
  - apply map_lookup_filter_None. left. exact E.
Qed.

Lemma TemporaryDirectory_frame {A : Type} (env : Env) (body : string -> io A)
  (s : filesystem) (p : string) :
  (forall s0, files (snd (body (tmpname env s) s0)) !! p = files s0 !! p) ->
  (forall s0, dirs (snd (body (tmpname env s) s0)) = dirs s0) ->
  under_dir (tmpname env s) p = false ->
  files (snd (TemporaryDirectory env body s)) !! p = files s !! p
  /\ (p <> tmpname env s ->
      (p ∈ dirs (snd (TemporaryDirectory env body s)) <-> p ∈ dirs s)).
Proof.
  intros Hfiles Hdirs Hp. rewrite TemporaryDirectory_run. cbn [snd]. split.
  - rewrite rmtree_frame by exact Hp. rewrite Hfiles. reflexivity.
  - intros Hne. unfold rmtree. cbn [dirs]. rewrite Hdirs. cbn [dirs].
    rewrite elem_of_filter, elem_of_union, elem_of_singleton. tauto.
Qed.

(** *** The files a conversion opens *)

Lemma staged_to_under (d : string) (V : variant) :
  Forall (fun e => under_dir d (event_file e) = true)
    (staged_to d (schema_name V)).
Proof.
  destruct (staged_under d V) as (U1 & U2 & U3 & U4 & _).
  unfold staged_to. repeat constructor; assumption.
Qed.

Lemma staged_from_under (d : string) (V : variant) :
  Forall (fun e => under_dir d (event_file e) = true)
    (staged_from d (schema_name V)).
Proof.
  destruct (staged_under d V) as (U1 & U2 & _ & _ & U5 & U6).
  unfold staged_from. repeat constructor; assumption.
Qed.

Lemma Forall_prefix {A : Type} (P : A -> Prop) (l1 l2 : list A) :
  l1 `prefix_of` l2 -> Forall P l2 -> Forall P l1.
Proof. intros [k ->] H. apply Forall_app in H. tauto. Qed.

Lemma staged_files_differ (d : string) (V : variant) :
  List.NoDup (map event_file (staged_to d (schema_name V)))
  /\ List.NoDup (map event_file (staged_from d (schema_name V))).
Proof.
  assert (Hne : forall a b : string,
             relative a = true -> relative b = true -> a <> b ->
             path_join d a <> path_join d b).
  { intros a b Ha Hb Hab E. apply Hab. exact (path_join_inj d a b Ha Hb E). }
  split; destruct V; cbn [staged_to staged_from map event_file schema_name];
    repeat (apply List.NoDup_cons; [cbn [In]; intros H |]);
    try apply List.NoDup_nil;
    repeat (destruct H as [H | H]); try contradiction;
    revert H; apply Hne; (reflexivity || (vm_compute; discriminate)).
Qed.

(** *** Text around a document *)

Lemma skip_ws_all (w : pystr) : forallb is_ws w = true -> skip_ws w = [].
Proof.
  intros Hw. rewrite <- (app_nil_r w). rewrite skip_ws_app by exact Hw.
  reflexivity.
Qed.

Lemma loads_str_ws (t : pystr) : forallb is_ws t = true -> loads_str t = None.
Proof. intros Hw. unfold loads_str. rewrite skip_ws_all by exact Hw. reflexivity. Qed.

Lemma stops_ws (w : pystr) : forallb is_ws w = true -> stops w = true.
Proof.
  destruct w as [| c w]; [reflexivity |]. cbn [forallb]. intros H.
  apply andb_true_iff in H as [Hc _]. apply stops_cons. tauto.
Qed.

Lemma loads_str_padded (f : fmt) (j : json) (w1 w2 : pystr) :
  fmt_ok f = true -> json_ok j = true ->
  forallb is_ws w1 = true -> forallb is_ws w2 = true ->
  loads_str (w1 ++ dumps f j ++ w2)%list = Some j.
Proof.
  intros Hf Hok H1 H2. unfold loads_str, dumps.
  rewrite skip_ws_value by exact H1.
  rewrite scan_once_iterencode; try assumption.
  - rewrite skip_ws_all by exact H2. reflexivity.
  - pose proof (depth_length f 0 j Hf). rewrite !length_app. lia.
  - apply stops_ws. exact H2.
Qed.

Lemma is_ws_not_bom (c : N) : is_ws c = true -> (c =? 0xfeff)%N = false.
Proof.
  unfold is_ws. intros H.
  repeat (apply orb_true_iff in H as [H | H]);
    apply N.eqb_eq in H as ->; reflexivity.
Qed.

Lemma json_loads_str_plain (env : Env) (t : pystr) :
  match t with c :: _ => (c =? 0xfeff)%N = false | [] => True end ->
  json_loads env (Str t)
  = match loads_str t with
    | Some j => Ok j
    | None => Err JSONDecodeError
    end.
Proof.
  intros H. unfold json_loads. destruct t as [| c t]; [reflexivity |].
  rewrite H. reflexivity.
Qed.

Lemma json_loads_padded (env : Env) (f : fmt) (j : json) (w1 w2 : pystr) :
  fmt_ok f = true -> json_ok j = true ->
  forallb is_ws w1 = true -> forallb is_ws w2 = true ->
  json_loads env (Str (w1 ++ dumps f j ++ w2)%list) = Ok j.
Proof.
  intros Hf Hok H1 H2. rewrite json_loads_str_plain.
  - rewrite (loads_str_padded f j w1 w2) by assumption. reflexivity.
  - destruct w1 as [| c w1].
    + cbn [app]. unfold dumps.
      destruct (iterencode_head f 0 j) as (c & t & -> & Hc). cbn [app].
      apply N.eqb_neq. intros ->. discriminate Hc.
    + cbn [app forallb] in H1 |- *. apply andb_true_iff in H1 as [Hc _].
      exact (is_ws_not_bom c Hc).
Qed.

Lemma json_loads_ws (env : Env) (t : pystr) :
  forallb is_ws t = true -> json_loads env (Str t) = Err JSONDecodeError.
Proof.
  intros Hw. rewrite json_loads_str_plain.
  - rewrite (loads_str_ws t Hw). reflexivity.
  - destruct t as [| c t]; [exact I |].
    cbn [forallb] in Hw. apply andb_true_iff in Hw as [Hc _].
    exact (is_ws_not_bom c Hc).
Qed.

Lemma json_loads_bytes_str (env : Env) (b : bytes) :
  decodes_ascii env -> is_plain_ascii b = true ->
  json_loads env (Bytes b) = json_loads env (Str (ascii_text b)).
Proof.
  intros Hd Hb. rewrite json_loads_str_plain.
  - unfold json_loads. rewrite (Hd b Hb). reflexivity.
  - destruct b as [| x b]; [exact I |].
    cbn [ascii_text map]. cbn [is_plain_ascii forallb] in Hb.
    apply andb_true_iff in Hb as [Hx _]. apply andb_true_iff in Hx as [_ Hx].
    apply N.ltb_lt in Hx. apply N.eqb_neq. lia.
Qed.

(** *** [str.encode("ascii")] *)

Lemma encode_ascii_Some (t : pystr) :
  forallb (fun c => (c <? 128)%N) t = true -> is_Some (encode_ascii t).
Proof.
  induction t as [| c t IH]; [intros _; eexists; reflexivity |].
  cbn [forallb encode_ascii]. intros H. apply andb_true_iff in H as [Hc Ht].
  rewrite Hc. destruct (IH Ht) as [bs ->].
  destruct (Byte.of_N c) as [x |] eqn:Hx; [eexists; reflexivity |].
  apply Byte.of_N_None_iff in Hx. apply N.ltb_lt in Hc. lia.
Qed.

Lemma encode_ascii_None (t : pystr) :
  forallb (fun c => (c <? 128)%N) t = false -> encode_ascii t = None.
Proof.
  induction t as [| c t IH]; [discriminate |].
  cbn [forallb encode_ascii]. intros H.
  destruct (c <? 128)%N; [| reflexivity].
  cbn [andb] in H. rewrite (IH H). destruct (Byte.of_N c); reflexivity.
Qed.

Lemma str_encode_ascii_error (t : pystr) :
  str_encode_ascii t = Err UnicodeEncodeError
  <-> forallb (fun c => (c <? 128)%N) t = false.
Proof.
  unfold str_encode_ascii. split.
  - intros H. destruct (forallb _ t) eqn:E; [| reflexivity].
    destruct (encode_ascii_Some t E) as [b Hb]. rewrite Hb in H.
    discriminate H.
  - intros H. rewrite (encode_ascii_None t H). reflexivity.
Qed.

End OutcomeFacts.

Import OutcomeFacts.

(** ** Further properties of the module *)

(** X1. [_write_schema] touches one file: whether it returns or raises,
    every other file and every directory is as before, and the one file
    it opened is the schema file of the directory. *)
Theorem write_schema_touches_one_file (env : Env) (d name : string)
  (s : filesystem) (p : string) :
  p <> path_join d (name ++ ".fbs") ->
  files (snd (_write_schema env d name s)) !! p = files s !! p
  /\ dirs (snd (_write_schema env d name s)) = dirs s
  /\ opened (snd (_write_schema env d name s))
     = (opened s ++ [Opened (path_join d (name ++ ".fbs")) WB])%list.
Proof.
  intros Hp. unfold _write_schema, bind, open_wb, resource_string,
    file_write, log, set_file.
  destruct (writable env (path_join d (name ++ ".fbs")));
    cbn [fst snd files dirs opened]; [| repeat split].
  destruct (resources env !! (name ++ ".fbs"));
    cbn [fst snd files dirs opened];
    rewrite ?lookup_insert_ne by (intros E; apply Hp; symmetry; exact E);
    repeat split.
Qed.

(** X2. [_write_schema] opens the schema file before it asks for the
    resource: when the resource is missing the call raises, and the
    schema file is left behind empty, whatever it held before. *)
Theorem write_schema_truncates_first (env : Env) (d name : string)
  (s : filesystem) :
  writable env (path_join d (name ++ ".fbs")) = true ->
  resources env !! (name ++ ".fbs") = None ->
  fst (_write_schema env d name s)
  = Err (ResourceNotFoundError (name ++ ".fbs"))
  /\ files (snd (_write_schema env d name s))
       !! path_join d (name ++ ".fbs") = Some [].
Proof.
  intros Hw Hr. unfold _write_schema, bind, open_wb, resource_string,
    file_write, log, set_file.
  rewrite Hw, Hr. cbn [fst snd files]. split; [reflexivity |].
  apply lookup_insert_eq.
Qed.

(** X3. Once the schemas are staged, [_convert_to_flatbuffer] and
    [_convert_to_flatcc] raise [UnicodeEncodeError] exactly for a text
    with a character above 127, and the compiler has no say in it. *)
Theorem convert_unicode_error_iff (env : Env) (V : variant) (text : pystr)
  (s : filesystem) :
  all_writable env -> has_schemas env V ->
  (fst (convert_to_V env V text s) = Err UnicodeEncodeError
   <-> forallb (fun c => (c <? 128)%N) text = false).
Proof.
  intros Hw [[sch Hsch] [scal Hscal]].
  rewrite convert_to_V_outcome. unfold convert_to_outcome. cbv zeta.
  rewrite !Hw, Hsch, Hscal. cbn [negb].
  rewrite <- str_encode_ascii_error.
  unfold str_encode_ascii. destruct (encode_ascii text) as [payload |].
  - destruct (flatc_to_binary env sch payload); split; discriminate.
  - split; reflexivity.
Qed.

(** X4. A conversion reads nothing it has not written itself: what
    [serialize_V] and [deserialize_V] return does not depend on the
    files and directories that exist when they are called, only on the
    name of the temporary directory. *)
Theorem conversion_result_hermetic (env : Env) (V : variant) (x : value)
  (blob : bytes) (s s' : filesystem) :
  tmpname env s = tmpname env s' ->
  fst (serialize_V env V x s) = fst (serialize_V env V x s')
  /\ fst (deserialize_V env V blob s) = fst (deserialize_V env V blob s').
Proof.
  intros Hd. split.
  - rewrite !serialize_V_eq, !convert_to_V_outcome, Hd. reflexivity.
  - rewrite !deserialize_V_fst, !convert_from_V_outcome, Hd. reflexivity.
Qed.

(** X5. [serialize_V] returns a blob exactly when the three staged files
    can be written, the package holds both schemas, and the compiler
    makes that blob of the schema of the variant and the ASCII bytes of
    the JSON text; the blob is never anything else. *)
Theorem serialize_succeeds_iff (env : Env) (V : variant) (x : value)
  (s : filesystem) (blob : bytes) :
  fst (serialize_V env V x s) = Ok blob
  <-> (writable env (path_join (tmpname env s) (schema_name V ++ ".fbs"))
       = true
       /\ writable env
            (path_join (tmpname env s) (SCALAR_TYPE_SCHEMA_NAME ++ ".fbs"))
          = true
       /\ writable env (path_join (tmpname env s) (schema_name V ++ ".json"))
          = true
       /\ exists schema payload,
            resources env !! (schema_name V ++ ".fbs") = Some schema
            /\ is_Some (resources env !! (SCALAR_TYPE_SCHEMA_NAME ++ ".fbs"))
            /\ str_encode_ascii (_serialize_from_etdump_to_json x)
               = Ok payload
            /\ flatc_to_binary env schema payload = Some blob).
Proof.
  rewrite serialize_V_eq, convert_to_V_outcome.
  unfold convert_to_outcome. cbv zeta. split.
  - destruct (writable env _); [| discriminate]. cbn [negb].
    destruct (resources env !! (schema_name V ++ ".fbs")) as [sch |];
      [| discriminate].
    destruct (writable env _); [| discriminate]. cbn [negb].
    destruct (resources env !! (SCALAR_TYPE_SCHEMA_NAME ++ ".fbs"))
      as [scal |]; [| discriminate].
    destruct (writable env _); [| discriminate]. cbn [negb].
    destruct (str_encode_ascii _) as [payload |]; [| discriminate].
    destruct (flatc_to_binary env sch payload) as [b |] eqn:Hb;
      [| discriminate].
    intros [= <-]. repeat split. exists sch, payload.
    repeat split; [eexists; reflexivity | exact Hb].
  - intros (W1 & W2 & W3 & sch & payload & Hs & [scal Hc] & He & Hb).
    rewrite W1, W2, W3, Hs, Hc, He, Hb. reflexivity.
Qed.

(** X6. [deserialize_V] returns a record exactly when the staged files
    can be written, the package holds both schemas, the compiler turns
    the blob into a JSON file under the schema of the variant, and that
    file decodes to the record. *)
Theorem deserialize_succeeds_iff (env : Env) (V : variant) (blob : bytes)
  (s : filesystem) (x : value) :
  fst (deserialize_V env V blob s) = Ok x
  <-> (writable env (path_join (tmpname env s) (schema_name V ++ ".fbs"))
       = true
       /\ writable env
            (path_join (tmpname env s) (SCALAR_TYPE_SCHEMA_NAME ++ ".fbs"))
          = true
       /\ writable env (path_join (tmpname env s) "schema.bin") = true
       /\ exists schema text,
            resources env !! (schema_name V ++ ".fbs") = Some schema
            /\ is_Some (resources env !! (SCALAR_TYPE_SCHEMA_NAME ++ ".fbs"))
            /\ flatc_to_json env schema blob = Some text
            /\ decode_V env V (Bytes text) = Ok x).
Proof.
  rewrite deserialize_V_fst, convert_from_V_outcome.
  unfold convert_from_outcome. cbv zeta. split.
  - destruct (writable env _); [| discriminate]. cbn [negb].
    destruct (resources env !! (schema_name V ++ ".fbs")) as [sch |];
      [| discriminate].
    destruct (writable env _); [| discriminate]. cbn [negb].
    destruct (resources env !! (SCALAR_TYPE_SCHEMA_NAME ++ ".fbs"))
      as [scal |]; [| discriminate].
    destruct (writable env _); [| discriminate]. cbn [negb].
    destruct (flatc_to_json env sch blob) as [text |] eqn:Ht;
      [| discriminate].
    intros Hdec. repeat split. exists sch, text.
    repeat split; [eexists; reflexivity | exact Ht | exact Hdec].
  - intros (W1 & W2 & W3 & sch & text & Hs & [scal Hc] & Ht & Hdec).
    rewrite W1, W2, W3, Hs, Hc, Ht. exact Hdec.
Qed.

(** X7. A conversion changes nothing outside its temporary directory:
    after [serialize_V] and after [deserialize_V], whether they return
    or raise, every file that is not inside the directory holds what it
    held, and every other directory is there or not as before. *)
Theorem conversion_leaves_other_files (env : Env) (V : variant) (x : value)
  (blob : bytes) (s : filesystem) (p : string) :
  under_dir (tmpname env s) p = false ->
  p <> tmpname env s ->
  (files (snd (serialize_V env V x s)) !! p = files s !! p
   /\ (p ∈ dirs (snd (serialize_V env V x s)) <-> p ∈ dirs s))
  /\ (files (snd (deserialize_V env V blob s)) !! p = files s !! p
      /\ (p ∈ dirs (snd (deserialize_V env V blob s)) <-> p ∈ dirs s)).
Proof.
  intros Hp Hne. split.
  - rewrite serialize_V_eq, convert_to_V_eq.
    destruct (TemporaryDirectory_frame env
                (convert_to_body env (schema_name V)
                   (_serialize_from_etdump_to_json x)) s p) as [Hf Hd].
    + intros s0. apply convert_to_body_frame. exact Hp.
    + intros s0. apply convert_to_body_dirs.
    + exact Hp.
    + split; [exact Hf | exact (Hd Hne)].
  - rewrite deserialize_V_eq, bind_lift_snd, convert_from_V_eq.
    destruct (TemporaryDirectory_frame env
                (convert_from_body env (schema_name V) blob) s p)
      as [Hf Hd].
    + intros s0. apply convert_from_body_frame. exact Hp.
    + intros s0. apply convert_from_body_dirs.
    + exact Hp.
    + split; [exact Hf | exact (Hd Hne)].
Qed.

(** X8. A conversion opens files of its own temporary directory only,
    and each of them once: no call of [serialize_V] or [deserialize_V]
    opens a file elsewhere, whether it returns or raises. *)
Theorem opens_only_workspace_files (env : Env) (V : variant) (x : value)
  (blob : bytes) (s : filesystem) :
  (exists evs,
      opened (snd (serialize_V env V x s)) = (opened s ++ evs)%list
      /\ Forall (fun e => under_dir (tmpname env s) (event_file e) = true) evs
      /\ List.NoDup (map event_file evs))
  /\ (exists evs,
        opened (snd (deserialize_V env V blob s)) = (opened s ++ evs)%list
        /\ Forall (fun e => under_dir (tmpname env s) (event_file e) = true)
             evs
        /\ List.NoDup (map event_file evs)).
Proof.
  assert (Hnd : forall l1 l2 : list event,
             l1 `prefix_of` l2 -> List.NoDup (map event_file l2) ->
             List.NoDup (map event_file l1)).
  { intros l1 l2 [k ->] H. rewrite map_app in H.
    exact (List.NoDup_app_remove_r _ _ H). }
  destruct (staged_files_differ (tmpname env s) V) as [Dto Dfrom].
  split.
  - rewrite serialize_V_eq, convert_to_V_eq, TemporaryDirectory_run.
    cbn [snd rmtree opened].
    destruct (convert_to_body_log env (schema_name V)
                (_serialize_from_etdump_to_json x) (tmpname env s)
                (FS (files s) ({[tmpname env s]} ∪ dirs s) (opened s)))
      as (evs & Hlog & Hpre & _).
    exists evs. split; [exact Hlog |]. split.
    + exact (Forall_prefix _ _ _ Hpre (staged_to_under _ V)).
    + exact (Hnd _ _ Hpre Dto).
  - rewrite deserialize_V_eq, bind_lift_snd, convert_from_V_eq,
      TemporaryDirectory_run.
    cbn [snd rmtree opened].
    destruct (convert_from_body_log env (schema_name V) blob (tmpname env s)
                (FS (files s) ({[tmpname env s]} ∪ dirs s) (opened s)))
      as (evs & Hlog & Hpre & _).
    exists evs. split; [exact Hlog |]. split.
    + exact (Forall_prefix _ _ _ Hpre (staged_from_under _ V)).
    + exact (Hnd _ _ Hpre Dfrom).
Qed.

Lemma ws_plain_ascii (b : bytes) :
  forallb is_ws (ascii_text b) = true -> is_plain_ascii b = true.
Proof.
  unfold ascii_text, is_plain_ascii. induction b as [| x b IH]; [reflexivity |].
  cbn [map forallb]. intros H. apply andb_true_iff in H as [Hx Hb].
  rewrite (IH Hb), andb_true_r.
  unfold is_ws in Hx.
  repeat (apply orb_true_iff in Hx as [Hx | Hx]);
    apply N.eqb_eq in Hx; rewrite Hx; reflexivity.
Qed.

(** X9. A payload of nothing but blanks, tabs and line ends -- the empty
    payload among them -- is no document: [json.loads] raises
    [JSONDecodeError] in [_deserialize_from_json_to_etdump] and in
    [_deserialize_from_json_to_etdump_flatcc], and no record is built. *)
Theorem blank_payload_is_rejected (env : Env) (V : variant) (b : bytes) :
  decodes_ascii env ->
  forallb is_ws (ascii_text b) = true ->
  decode_V env V (Bytes b) = Err JSONDecodeError.
Proof.
  intros Hd Hw. rewrite decode_V_eq.
  rewrite (json_loads_bytes_str env b Hd (ws_plain_ascii b Hw)).
  rewrite (json_loads_ws env _ Hw). reflexivity.
Qed.

(** X10. The decoders see the document and not its layout: a payload
    that is a JSON document written with any indentation and any
    blank-padded separators, and with blanks or line ends before and
    after it, is handed to [_json_to_dataclass] as that document. *)
Theorem decoding_ignores_layout (env : Env) (V : variant) (f : fmt)
  (j : json) (w1 w2 : pystr) (b : bytes) :
  decodes_ascii env ->
  fmt_ok f = true -> json_ok j = true ->
  forallb is_ws w1 = true -> forallb is_ws w2 = true ->
  is_plain_ascii b = true ->
  ascii_text b = (w1 ++ dumps f j ++ w2)%list ->
  decode_V env V (Bytes b) = _json_to_dataclass j (schema_of env V).
Proof.
  intros Hd Hf Hj H1 H2 Hb E. rewrite decode_V_eq.
  rewrite (json_loads_bytes_str env b Hd Hb), E.
  rewrite (json_loads_padded env f j w1 w2 Hf Hj H1 H2). reflexivity.
Qed.

(** X11. Every conversion needs the scalar-type schema: when the package
    lacks [scalar_type.fbs], [serialize_V] and [deserialize_V] raise for
    every record and every blob, before the payload is written and
    before the compiler is run. *)
Theorem scalar_schema_required (env : Env) (V : variant) (x : value)
  (blob : bytes) (s : filesystem) :
  all_writable env ->
  is_Some (resources env !! (schema_name V ++ ".fbs")) ->
  resources env !! (SCALAR_TYPE_SCHEMA_NAME ++ ".fbs") = None ->
  (fst (serialize_V env V x s)
   = Err (ResourceNotFoundError (SCALAR_TYPE_SCHEMA_NAME ++ ".fbs"))
   /\ fst (deserialize_V env V blob s)
      = Err (ResourceNotFoundError (SCALAR_TYPE_SCHEMA_NAME ++ ".fbs")))
  /\ (forall e, In e (opened (snd (serialize_V env V x s))) ->
                In e (opened s)
                \/ e = Opened (path_join (tmpname env s)
                                 (schema_name V ++ ".fbs")) WB
                \/ e = Opened (path_join (tmpname env s)
                                 (SCALAR_TYPE_SCHEMA_NAME ++ ".fbs")) WB).
Proof.
  intros Hw [sch Hs] Hc. split; [split |].
  - rewrite serialize_V_eq, convert_to_V_outcome.
    unfold convert_to_outcome. cbv zeta. rewrite !Hw, Hs, Hc. reflexivity.
  - rewrite deserialize_V_fst, convert_from_V_outcome.
    unfold convert_from_outcome. cbv zeta. rewrite !Hw, Hs, Hc. reflexivity.
  - rewrite serialize_V_eq, convert_to_V_eq, TemporaryDirectory_run.
    cbn [snd rmtree opened].
    unfold convert_to_body, _write_schema, bind, open_wb, resource_string,
      file_write, log, set_file.
    rewrite !Hw, Hs, Hc. cbn [fst snd opened files dirs].
    intros e He. rewrite <- !app_assoc in He.
    apply in_app_or in He as [He | He]; [left; exact He |].
    cbn [app In] in He. destruct He as [<- | [<- | []]]; auto.
Qed.

Lemma encode_ascii_text (t : pystr) (b : bytes) :
  encode_ascii t = Some b -> ascii_text b = t.
Proof.
  revert b. induction t as [| c t IH]; intros b.
  - intros [= <-]. reflexivity.
  - cbn [encode_ascii]. destruct (c <? 128)%N; [| discriminate].
    destruct (Byte.of_N c) as [x |] eqn:Hx; [| discriminate].
    destruct (encode_ascii t) as [bs |]; [| discriminate].
    intros [= <-]. cbn [ascii_text map]. apply Byte.to_of_N in Hx.
    rewrite Hx. f_equal. exact (IH bs eq_refl).
Qed.

(** X12. The blob [_convert_to_flatbuffer] and [_convert_to_flatcc]
    return is what the compiler made of the schema of the variant and
    of the text itself, one byte for each character in the same order:
    nothing is added to the text or taken from it on the way. *)
Theorem compiler_gets_the_text (env : Env) (V : variant) (text : pystr)
  (s : filesystem) (blob : bytes) :
  fst (convert_to_V env V text s) = Ok blob ->
  exists schema payload,
    resources env !! (schema_name V ++ ".fbs") = Some schema
    /\ ascii_text payload = text
    /\ flatc_to_binary env schema payload = Some blob.
Proof.
  rewrite convert_to_V_outcome. unfold convert_to_outcome. cbv zeta.
  destruct (writable env _); [| discriminate]. cbn [negb].
  destruct (resources env !! (schema_name V ++ ".fbs")) as [sch |];
    [| discriminate].
  destruct (writable env _); [| discriminate]. cbn [negb].
  destruct (resources env !! (SCALAR_TYPE_SCHEMA_NAME ++ ".fbs"));
    [| discriminate].
  destruct (writable env _); [| discriminate]. cbn [negb].
  unfold str_encode_ascii.
  destruct (encode_ascii text) as [payload |] eqn:He; [| discriminate].
  destruct (flatc_to_binary env sch payload) as [b |] eqn:Hb;
    [| discriminate].
  intros [= <-]. exists sch, payload.
  split; [reflexivity |]. split; [exact (encode_ascii_text _ _ He) | exact Hb].
Qed.

(** ** The further properties at the concrete setting *)

Lemma no_scalar_all_writable : all_writable env_no_scalar.
Proof. intros file. reflexivity. Qed.

Lemma write_schema_touches_one_file_witness :
  "/home/user/notes.txt"
  <> path_join Example.workspace (ETDUMP_SCHEMA_NAME ++ ".fbs")
  /\ files (snd (_write_schema Example.env Example.workspace
                   ETDUMP_SCHEMA_NAME busy_fs)) !! "/home/user/notes.txt"
     = files busy_fs !! "/home/user/notes.txt"
  /\ dirs (snd (_write_schema Example.env Example.workspace
                  ETDUMP_SCHEMA_NAME busy_fs)) = dirs busy_fs
  /\ opened (snd (_write_schema Example.env Example.workspace
                    ETDUMP_SCHEMA_NAME busy_fs))
     = (opened busy_fs
        ++ [Opened (path_join Example.workspace
                      (ETDUMP_SCHEMA_NAME ++ ".fbs")) WB])%list.
Proof.
  split; [vm_compute; discriminate |].
  apply write_schema_touches_one_file. vm_compute; discriminate.
Defined.

Lemma write_schema_truncates_first_witness :
  writable env_no_scalar
    (path_join Example.workspace (SCALAR_TYPE_SCHEMA_NAME ++ ".fbs")) = true
  /\ resources env_no_scalar !! (SCALAR_TYPE_SCHEMA_NAME ++ ".fbs") = None
  /\ fst (_write_schema env_no_scalar Example.workspace
            SCALAR_TYPE_SCHEMA_NAME busy_fs)
     = Err (ResourceNotFoundError (SCALAR_TYPE_SCHEMA_NAME ++ ".fbs"))
  /\ files (snd (_write_schema env_no_scalar Example.workspace
                   SCALAR_TYPE_SCHEMA_NAME busy_fs))
       !! path_join Example.workspace (SCALAR_TYPE_SCHEMA_NAME ++ ".fbs")
     = Some [].
Proof.
  split; [reflexivity |].
  split; [vm_compute; reflexivity |].
  apply write_schema_truncates_first; [reflexivity | vm_compute; reflexivity].
Defined.

Lemma convert_unicode_error_iff_witness :
  all_writable Example.env /\ has_schemas Example.env Current
  /\ (fst (convert_to_V Example.env Current latin_text busy_fs)
      = Err UnicodeEncodeError
      <-> forallb (fun c => (c <? 128)%N) latin_text = false).
Proof.
  split; [exact example_all_writable |].
  split; [exact (example_has_schemas Current) |].
  apply convert_unicode_error_iff;
    [exact example_all_writable | exact (example_has_schemas Current)].
Defined.

Lemma conversion_result_hermetic_witness :
  tmpname Example.env Example.empty_fs = tmpname Example.env busy_fs
  /\ fst (serialize_V Example.env Legacy Example.record Example.empty_fs)
     = fst (serialize_V Example.env Legacy Example.record busy_fs)
  /\ fst (deserialize_V Example.env Legacy Example.payload Example.empty_fs)
     = fst (deserialize_V Example.env Legacy Example.payload busy_fs).
Proof.
  split; [reflexivity |].
  apply conversion_result_hermetic. reflexivity.
Defined.

Lemma conversion_leaves_other_files_witness :
  under_dir (tmpname Example.env busy_fs) "/home/user/notes.txt" = false
  /\ "/home/user/notes.txt" <> tmpname Example.env busy_fs
  /\ (files (snd (serialize_V Example.env Legacy Example.record busy_fs))
        !! "/home/user/notes.txt"
      = files busy_fs !! "/home/user/notes.txt"
      /\ ("/home/user/notes.txt"
            ∈ dirs (snd (serialize_V Example.env Legacy Example.record
                           busy_fs))
          <-> "/home/user/notes.txt" ∈ dirs busy_fs))
  /\ (files (snd (deserialize_V Example.env Legacy Example.payload busy_fs))
        !! "/home/user/notes.txt"
      = files busy_fs !! "/home/user/notes.txt"
      /\ ("/home/user/notes.txt"
            ∈ dirs (snd (deserialize_V Example.env Legacy Example.payload
                           busy_fs))
          <-> "/home/user/notes.txt" ∈ dirs busy_fs)).
Proof.
  split; [vm_compute; reflexivity |].
  split; [vm_compute; discriminate |].
  apply conversion_leaves_other_files;
    [vm_compute; reflexivity | vm_compute; discriminate].
Defined.

Lemma blank_payload_is_rejected_witness :
  decodes_ascii Example.env
  /\ forallb is_ws (ascii_text (Example.bytes_of " ")) = true
  /\ decode_V Example.env Legacy (Bytes (Example.bytes_of " "))
     = Err JSONDecodeError.
Proof.
  split; [exact example_decodes_ascii |].
  split; [vm_compute; reflexivity |].
  apply blank_payload_is_rejected;
    [exact example_decodes_ascii | vm_compute; reflexivity].
Defined.

Lemma decoding_ignores_layout_witness :
  decodes_ascii Example.env
  /\ fmt_ok compact_fmt = true /\ json_ok Example.document = true
  /\ forallb is_ws [32%N] = true /\ forallb is_ws [13%N; 10%N] = true
  /\ is_plain_ascii padded_payload = true
  /\ ascii_text padded_payload
     = ([32%N] ++ dumps compact_fmt Example.document ++ [13%N; 10%N])%list
  /\ decode_V Example.env Current (Bytes padded_payload)
     = _json_to_dataclass Example.document (schema_of Example.env Current).
Proof.
  split; [exact example_decodes_ascii |].
  split; [vm_compute; reflexivity |].
  split; [vm_compute; reflexivity |].
  split; [vm_compute; reflexivity |].
  split; [vm_compute; reflexivity |].
  split; [vm_compute; reflexivity |].
  split; [vm_compute; reflexivity |].
  apply (decoding_ignores_layout Example.env Current compact_fmt
           Example.document [32%N] [13%N; 10%N]);
    try exact example_decodes_ascii; vm_compute; reflexivity.
Defined.

Lemma scalar_schema_required_witness :
  all_writable env_no_scalar
  /\ is_Some (resources env_no_scalar !! (schema_name Legacy ++ ".fbs"))
  /\ resources env_no_scalar !! (SCALAR_TYPE_SCHEMA_NAME ++ ".fbs") = None
  /\ (fst (serialize_V env_no_scalar Legacy Example.record busy_fs)
      = Err (ResourceNotFoundError (SCALAR_TYPE_SCHEMA_NAME ++ ".fbs"))
      /\ fst (deserialize_V env_no_scalar Legacy Example.payload busy_fs)
         = Err (ResourceNotFoundError (SCALAR_TYPE_SCHEMA_NAME ++ ".fbs")))
  /\ (forall e,
        In e (opened (snd (serialize_V env_no_scalar Legacy Example.record
                             busy_fs))) ->
        In e (opened busy_fs)
        \/ e = Opened (path_join (tmpname env_no_scalar busy_fs)
                         (schema_name Legacy ++ ".fbs")) WB
        \/ e = Opened (path_join (tmpname env_no_scalar busy_fs)
                         (SCALAR_TYPE_SCHEMA_NAME ++ ".fbs")) WB).
Proof.
  split; [exact no_scalar_all_writable |].
  split; [vm_compute; eexists; reflexivity |].
  split; [vm_compute; reflexivity |].
  apply scalar_schema_required;
    [exact no_scalar_all_writable | vm_compute; eexists; reflexivity
    | vm_compute; reflexivity].
Defined.

Lemma compiler_gets_the_text_witness :
  fst (convert_to_V Example.env Legacy
         (_serialize_from_etdump_to_json Example.record) busy_fs)
  = Ok Example.payload
  /\ exists schema payload,
       resources Example.env !! (schema_name Legacy ++ ".fbs") = Some schema
       /\ ascii_text payload = _serialize_from_etdump_to_json Example.record
       /\ flatc_to_binary Example.env schema payload = Some Example.payload.
Proof.
  split; [vm_compute; reflexivity |].
  apply (compiler_gets_the_text Example.env Legacy _ busy_fs).
  vm_compute; reflexivity.
Defined.
